(** * LibreChat invoice extraction client: a shallow embedding

  The development follows
  [librechat-agent-invoice-extractor/librechat_invoice_extractor.py]
  (class [LibreChatInvoiceExtractor], [load_vendor_mappings], [main]) and
  [examples/batch_processing.py] ([process_invoice_folder]).

  Python [str] and [bytes] values are Rocq [string]s holding the UTF-8
  encoding of the text; JSON values are the inductive [pyval]; the
  effects of the program (console, file system, HTTP requests, the two
  identifiers kept on the client object) are threaded through a state
  and exception monad over the record [World]. *)

From Stdlib Require Import ZArith Lia String Ascii List PrimFloat DecimalString.
From stdpp Require Import gmap strings list.

(** ** Python string operations used by the client *)

Module Str.

Definition nl : ascii := "010"%char.
Definition newline : string := String nl "".

(** [s.startswith(p)] *)
Fixpoint startswith (s p : string) : bool :=
  match p, s with
  | EmptyString, _ => true
  | String a p', String b s' => Ascii.eqb a b && startswith s' p'
  | String _ _, EmptyString => false
  end.

(** [s[n:]] *)
Fixpoint slice_from (n : nat) (s : string) : string :=
  match n, s with
  | O, _ => s
  | S n', String _ s' => slice_from n' s'
  | S _, EmptyString => EmptyString
  end.

(** [sub in s] for two strings *)
Fixpoint contains (s sub : string) : bool :=
  startswith s sub ||
  match s with
  | EmptyString => false
  | String _ r => contains r sub
  end.

Fixpoint has_char (c : ascii) (s : string) : bool :=
  match s with
  | EmptyString => false
  | String a r => Ascii.eqb a c || has_char c r
  end.

(** [s.split(sep)] for a one-character separator: never the empty list *)
Fixpoint split (sep : ascii) (s : string) : list string :=
  match s with
  | EmptyString => [EmptyString]
  | String c r =>
      if Ascii.eqb c sep then EmptyString :: split sep r
      else match split sep r with
           | h :: t => String c h :: t
           | [] => [String c EmptyString]
           end
  end.

(** [sep.join(l)] *)
Fixpoint join (sep : string) (l : list string) : string :=
  match l with
  | [] => EmptyString
  | x :: r =>
      match r with
      | [] => x
      | _ :: _ => x +:+ sep +:+ join sep r
      end
  end.

(** [l[1:-1]] *)
Definition slice_1_m1 {A : Type} (l : list A) : list A := removelast (tail l).

Definition byte (c : ascii) : nat := nat_of_ascii c.
Definition in_range (lo hi : nat) (c : ascii) : bool :=
  (lo <=? byte c) && (byte c <=? hi).

(** Python's [str.isspace] code points, read on the UTF-8 encoding:
    U+0009..000D, U+001C..0020; U+0085, U+00A0; U+1680, U+2000..200A,
    U+2028, U+2029, U+202F, U+205F, U+3000. *)
Definition space1 (c : ascii) : bool := in_range 9 13 c || in_range 28 32 c.
Definition space2 (c1 c2 : ascii) : bool :=
  (byte c1 =? 194) && ((byte c2 =? 133) || (byte c2 =? 160)).
Definition space3 (c1 c2 c3 : ascii) : bool :=
  ((byte c1 =? 225) && (byte c2 =? 154) && (byte c3 =? 128))
  || ((byte c1 =? 226) && (byte c2 =? 128)
      && (in_range 128 138 c3 || in_range 168 169 c3 || (byte c3 =? 175)))
  || ((byte c1 =? 226) && (byte c2 =? 129) && (byte c3 =? 159))
  || ((byte c1 =? 227) && (byte c2 =? 128) && (byte c3 =? 128)).

(** [s.lstrip()] *)
Fixpoint lstrip (s : string) : string :=
  match s with
  | EmptyString => s
  | String c1 r1 =>
      if space1 c1 then lstrip r1
      else match r1 with
           | EmptyString => s
           | String c2 r2 =>
               if space2 c1 c2 then lstrip r2
               else match r2 with
                    | EmptyString => s
                    | String c3 r3 => if space3 c1 c2 c3 then lstrip r3 else s
                    end
           end
  end.

(** [s.rstrip()] on the reversed bytes *)
Fixpoint rstrip_rev (s : string) : string :=
  match s with
  | EmptyString => s
  | String c1 r1 =>
      if space1 c1 then rstrip_rev r1
      else match r1 with
           | EmptyString => s
           | String c2 r2 =>
               if space2 c2 c1 then rstrip_rev r2
               else match r2 with
                    | EmptyString => s
                    | String c3 r3 => if space3 c3 c2 c1 then rstrip_rev r3 else s
                    end
           end
  end.

Definition rstrip (s : string) : string := String.rev (rstrip_rev (String.rev s)).

(** [s.strip()] *)
Definition strip (s : string) : string := rstrip (lstrip s).

(** [s.rstrip(c)] for a one-character argument *)
Fixpoint rstrip_char_rev (c : ascii) (s : string) : string :=
  match s with
  | EmptyString => s
  | String a r => if Ascii.eqb a c then rstrip_char_rev c r else s
  end.

Definition rstrip_char (c : ascii) (s : string) : string :=
  String.rev (rstrip_char_rev c (String.rev s)).

(** Well-formed UTF-8 (the byte sequences [bytes.decode('utf-8')] accepts). *)
Definition cont (c : ascii) : bool := in_range 128 191 c.
Definition second3 (b0 b1 : ascii) : bool :=
  if byte b0 =? 224 then in_range 160 191 b1
  else if byte b0 =? 237 then in_range 128 159 b1
  else cont b1.
Definition second4 (b0 b1 : ascii) : bool :=
  if byte b0 =? 240 then in_range 144 191 b1
  else if byte b0 =? 244 then in_range 128 143 b1
  else cont b1.

Fixpoint utf8_valid (s : string) : bool :=
  match s with
  | EmptyString => true
  | String b0 r0 =>
      if byte b0 <? 128 then utf8_valid r0
      else match r0 with
           | EmptyString => false
           | String b1 r1 =>
               if in_range 194 223 b0 then cont b1 && utf8_valid r1
               else match r1 with
                    | EmptyString => false
                    | String b2 r2 =>
                        if in_range 224 239 b0
                        then second3 b0 b1 && cont b2 && utf8_valid r2
                        else match r2 with
                             | EmptyString => false
                             | String b3 r3 =>
                                 in_range 240 244 b0 && second4 b0 b1
                                 && cont b2 && cont b3 && utf8_valid r3
                             end
                    end
           end
  end.

(** [line.decode('utf-8')]: [None] stands for [UnicodeDecodeError]. *)
Definition decode_utf8 (b : string) : option string :=
  if utf8_valid b then Some b else None.

(** Number of code points of a UTF-8 text ([len(s)]). *)
Fixpoint len (s : string) : nat :=
  match s with
  | EmptyString => 0
  | String c r => (if cont c then 0 else 1) + len r
  end.

End Str.

(** ** Paths (pathlib), on strings in pathlib's normal form *)

Module Path.

Definition slash : ascii := "/"%char.
Definition dot : ascii := "."%char.

(** [s.endswith(suf)] *)
Definition endswith (s suf : string) : bool :=
  Str.startswith (String.rev s) (String.rev suf).

(** [Path(p).name]: the final component *)
Definition name (p : string) : string := List.last (Str.split slash p) EmptyString.

(** [Path(p).suffix] is non-empty when the last dot of the name is neither
    its first nor its last character; [stem] is the name without it. *)
Definition stem (n : string) : string :=
  let parts := Str.split dot n in
  let front := Str.join "." (removelast parts) in
  if negb (String.eqb front EmptyString) && negb (String.eqb (List.last parts EmptyString) EmptyString)
  then front else n.

(** [Path(p).with_suffix('.json')]; [None] is the [ValueError] raised for an
    empty name. *)
Definition with_suffix_json (p : string) : option string :=
  let parts := Str.split slash p in
  let n := List.last parts EmptyString in
  if String.eqb n EmptyString then None
  else Some (Str.join "/" (removelast parts ++ [stem n +:+ ".json"])).

(** [dir / n] *)
Definition joinpath (dir n : string) : string := dir +:+ "/" +:+ n.

(** [p] names a direct child of [folder] whose name matches [*.pdf]. *)
Definition is_pdf_in (folder p : string) : bool :=
  Str.startswith p (folder +:+ "/")
  && negb (Str.has_char slash (Str.slice_from (String.length folder + 1) p))
  && endswith p ".pdf".

End Path.

(** ** Python values *)

(** The values [json.loads] produces; a [dict] keeps its items in insertion
    order, keys are strings. *)
#[local] Set Warnings "-register-all".
Inductive pyval : Type :=
| PyNone
| PyBool (b : bool)
| PyInt (z : Z)
| PyFloat (f : float)
| PyStr (s : string)
| PyList (l : list pyval)
| PyDict (d : list (string * pyval)).

Inductive exn : Type :=
| JSONDecodeError (msg : string)
| UnicodeDecodeError
| TypeError
| AttributeError
| KeyError (key : string)
| ValueError
| FileNotFoundError (path : string)
| FileExistsError (path : string)
| IsADirectoryError (path : string)
| OSError (path : string)
| ConnectionError
| SystemExit (code : Z).

Inductive outcome (A : Type) : Type :=
| Ok (a : A)
| Raised (e : exn).
Arguments Ok {A} a.
Arguments Raised {A} e.

Module Py.

(** Truth value of an object, as tested by [if], [not] and [or]. *)
Definition truthy (v : pyval) : bool :=
  match v with
  | PyNone => false
  | PyBool b => b
  | PyInt z => negb (z =? 0)%Z
  | PyFloat f => negb (PrimFloat.eqb f 0%float)
  | PyStr s => negb (String.eqb s EmptyString)
  | PyList l => match l with [] => false | _ :: _ => true end
  | PyDict d => match d with [] => false | _ :: _ => true end
  end.

(** [a or b] *)
Definition or_else (a b : pyval) : pyval := if truthy a then a else b.

Fixpoint lookup (d : list (string * pyval)) (k : string) : option pyval :=
  match d with
  | [] => None
  | (k', v) :: r => if String.eqb k' k then Some v else lookup r k
  end.

(** [k in data] for a string [k]: key test on a dict, membership in a
    list, substring test on a string, [TypeError] on anything else. *)
Definition contains (k : string) (data : pyval) : outcome bool :=
  match data with
  | PyDict d => Ok (match lookup d k with Some _ => true | None => false end)
  | PyList l =>
      Ok (existsb (fun v => match v with PyStr s => String.eqb s k | _ => false end) l)
  | PyStr s => Ok (Str.contains s k)
  | _ => Raised TypeError
  end.

(** [data[k]] for a string [k] *)
Definition getitem (data : pyval) (k : string) : outcome pyval :=
  match data with
  | PyDict d => match lookup d k with Some v => Ok v | None => Raised (KeyError k) end
  | _ => Raised TypeError
  end.

(** [data.get(k)] *)
Definition get (data : pyval) (k : string) : outcome pyval :=
  match data with
  | PyDict d => Ok (match lookup d k with Some v => v | None => PyNone end)
  | _ => Raised AttributeError
  end.

(** [data.items()] *)
Definition items (data : pyval) : outcome (list (string * pyval)) :=
  match data with
  | PyDict d => Ok d
  | _ => Raised AttributeError
  end.

(** [len(data)] *)
Definition len (data : pyval) : outcome nat :=
  match data with
  | PyDict d => Ok (length d)
  | PyList l => Ok (length l)
  | PyStr s => Ok (Str.len s)
  | _ => Raised TypeError
  end.

(** [s.strip()] exists on strings only *)
Definition strip (v : pyval) : outcome string :=
  match v with
  | PyStr s => Ok (Str.strip s)
  | _ => Raised AttributeError
  end.

End Py.

(** ** The world the program runs in *)

(** HTTP requests, as the [requests] session sends them. *)
Inductive request : Type :=
| ReqLogin (url email password : string)
| ReqUpload (url filename content endpoint : string)
| ReqAsk (url : string) (payload : pyval).

(** A response: status code, body ([response.text]) and, for a streamed
    response, the lines [response.iter_lines()] yields. *)
Record response : Type := mkResponse {
  status_code : Z;
  text : string;
  iter_lines : list string
}.

Inductive node : Type :=
| File (content : string)
| Dir.

(** One constructor per [print] statement, with the interpolated values. *)
Inductive message : Type :=
| MsgLoginOk
| MsgLoginFailed (status : Z) (body : string)
| MsgFileNotFound (path : string)
| MsgFileUploaded (filename : pyval)
| MsgUploadFailed (status : Z) (body : string)
| MsgSending (model : string)
| MsgExtractionFailed (status : Z) (body : string)
| MsgExtractionComplete
| MsgParseFailed (error : string)
| MsgRawResponse (raw : pyval)
| MsgLoadedVendors (n : nat)
| MsgInvoiceData (dump : string)
| MsgInvoiceSummary (vendor vendor_number invoice_number invoice_date total_amount currency item_summary : pyval)
| MsgSavedTo (path : string)
| MsgLoggingIn (url : string)
| MsgBatchLoginFailed
| MsgFoundPdfs (n : nat)
| MsgNoPdfs
| MsgProcessing (i n : nat) (name : string)
| MsgBatchUploadFailed
| MsgBatchExtractionFailed
| MsgBatchSaved (path : string)
| MsgBatchDetails (vendor invoice_number total_amount currency : pyval)
| MsgBatchError (error : string)
| MsgBatchComplete (total successful failed : nat)
| MsgSummarySaved (path : string).

(** The fields of a [LibreChatInvoiceExtractor] object (the [requests]
    session is represented by the request history of the world). *)
Record client : Type := mkClient {
  base_url : string;
  conversation_id : pyval;
  parent_message_id : pyval
}.

Record World : Type := mkWorld {
  fs : gmap string node;          (* the files and directories that exist *)
  denied : gset string;           (* paths that cannot be created or opened for writing *)
  server : list request -> request -> option response;
                                  (* the backend: history, request |-> response;
                                     [None] is a transport failure *)
  sent : list request;            (* requests sent so far, oldest first *)
  console : list message;         (* lines printed so far, oldest first *)
  self : client
}.

Definition set_fs (f : gmap string node) (w : World) : World :=
  mkWorld f (denied w) (server w) (sent w) (console w) (self w).
Definition set_sent (l : list request) (w : World) : World :=
  mkWorld (fs w) (denied w) (server w) l (console w) (self w).
Definition set_console (l : list message) (w : World) : World :=
  mkWorld (fs w) (denied w) (server w) (sent w) l (self w).
Definition set_self (c : client) (w : World) : World :=
  mkWorld (fs w) (denied w) (server w) (sent w) (console w) c.

(** ** State and exception monad *)

Definition M (A : Type) : Type := World -> outcome A * World.

Definition ret {A : Type} (a : A) : M A := fun w => (Ok a, w).
Definition raise {A : Type} (e : exn) : M A := fun w => (Raised e, w).
Definition bind {A B : Type} (m : M A) (k : A -> M B) : M B :=
  fun w => match m w with
           | (Ok a, w') => k a w'
           | (Raised e, w') => (Raised e, w')
           end.
Definition lift {A : Type} (o : outcome A) : M A := fun w => (o, w).
Definition get_world : M World := fun w => (Ok w, w).

(** [try: m  except Exception as e: h e] *)
Definition try_except {A : Type} (m : M A) (h : exn -> M A) : M A :=
  fun w => match m w with
           | (Ok a, w') => (Ok a, w')
           | (Raised e, w') => h e w'
           end.

Declare Scope py_scope.
Delimit Scope py_scope with py.
Notation "'let*' x ':=' m 'in' k" := (bind m (fun x => k))
  (at level 10, x name, m at level 200, k at level 200) : py_scope.
Notation "m ;; k" := (bind m (fun _ => k))
  (at level 100, k at level 200, right associativity) : py_scope.
Open Scope py_scope.

Definition print (m : message) : M unit :=
  fun w => (Ok tt, set_console (console w ++ [m]) w).

(** [session.post(...)] *)
Definition post (r : request) : M response :=
  fun w => match server w (sent w) r with
           | Some resp => (Ok resp, set_sent (sent w ++ [r]) w)
           | None => (Raised ConnectionError, set_sent (sent w ++ [r]) w)
           end.

(** [Path(p).exists()] *)
Definition path_exists (p : string) : M bool :=
  fun w => (Ok (match fs w !! p with Some _ => true | None => false end), w).

(** [open(p).read()] *)
Definition read_file (p : string) : M string :=
  fun w => match fs w !! p with
           | Some (File c) => (Ok c, w)
           | Some Dir => (Raised (IsADirectoryError p), w)
           | None => (Raised (FileNotFoundError p), w)
           end.

(** [open(p, 'w')] followed by writing [c] *)
Definition write_file (p c : string) : M unit :=
  fun w => if bool_decide (p ∈ denied w) then (Raised (OSError p), w)
           else match fs w !! p with
                | Some Dir => (Raised (IsADirectoryError p), w)
                | _ => (Ok tt, set_fs (<[p := File c]> (fs w)) w)
                end.

(** [Path(p).mkdir(exist_ok=True)] *)
Definition mkdir_exist_ok (p : string) : M unit :=
  fun w => match fs w !! p with
           | Some Dir => (Ok tt, w)
           | Some (File _) => (Raised (FileExistsError p), w)
           | None => if bool_decide (p ∈ denied w) then (Raised (OSError p), w)
                     else (Ok tt, set_fs (<[p := Dir]> (fs w)) w)
           end.

(** [folder.glob("*.pdf")], in the order the directory is enumerated *)
Definition glob_pdf (folder : string) : M (list string) :=
  fun w => (Ok (filter (fun p => Is_true (Path.is_pdf_in folder p)) (map fst (map_to_list (fs w)))), w).

(** ** The client: [LibreChatInvoiceExtractor] *)

Definition dq : string := String "034"%char EmptyString.
Definition quoted (s : string) : string := dq +:+ s +:+ dq.

Definition default_model : string := "qwen2.5-3b-instruct-invoice-extractor-gtx1650".
Definition nil_uuid : string := "00000000-0000-0000-0000-000000000000".
Definition fence : string := "```".

(** The text of the prompt before the vendor list (source lines 128-182). *)
Definition prompt_head : list string :=
  [ "Extract all invoice information from the provided text and return a JSON object with the following structure. Follow these rules strictly:";
    "";
    "1. Extract ONLY from the provided context - never guess or infer missing data";
    "2. Return null for any field not explicitly present in the text";
    "3. Follow the exact schema below";
    "4. Use ISO 8601 dates (YYYY-MM-DD)";
    "5. Use ISO 4217 currency codes (e.g., " +:+ quoted "EUR" +:+ ", " +:+ quoted "USD" +:+ ")";
    "6. Use dot as decimal separator for all numbers (e.g., 1234.56)";
    "7. Do not add explanations, prose, or additional fields";
    "8. Output JSON only";
    "";
    "JSON Schema:";
    "{";
    "  " +:+ quoted "vendor" +:+ ": null,";
    "  " +:+ quoted "vendor_number" +:+ ": null,";
    "  " +:+ quoted "invoice_number" +:+ ": null,";
    "  " +:+ quoted "invoice_date" +:+ ": null,";
    "  " +:+ quoted "due_date" +:+ ": null,";
    "  " +:+ quoted "currency" +:+ ": null,";
    "  " +:+ quoted "total_amount" +:+ ": null,";
    "  " +:+ quoted "vat_amount" +:+ ": null,";
    "  " +:+ quoted "vat_rate" +:+ ": null,";
    "  " +:+ quoted "item_summary" +:+ ": null,";
    "  " +:+ quoted "line_items" +:+ ": [";
    "    {";
    "      " +:+ quoted "description" +:+ ": null,";
    "      " +:+ quoted "quantity" +:+ ": null,";
    "      " +:+ quoted "unit_price" +:+ ": null,";
    "      " +:+ quoted "amount" +:+ ": null";
    "    }";
    "  ]";
    "}";
    "";
    "Field Definitions:";
    "- vendor: The name of the company/person issuing the invoice";
    "- vendor_number: The supplier/vendor number (Lieferantennummer) if present";
    "- invoice_number: The invoice reference/number";
    "- invoice_date: The date the invoice was issued (YYYY-MM-DD)";
    "- due_date: The payment due date (YYYY-MM-DD)";
    "- currency: ISO 4217 currency code (e.g., " +:+ quoted "EUR" +:+ ", " +:+ quoted "USD" +:+ ", " +:+ quoted "GBP" +:+ ")";
    "- total_amount: Total invoice amount including VAT (number with dot decimal)";
    "- vat_amount: Total VAT/tax amount (number with dot decimal)";
    "- vat_rate: VAT/tax rate as a percentage (e.g., 19 for 19%, 7 for 7%)";
    "- item_summary: Brief summary of all line items (max 15 words, e.g., " +:+ quoted "Office chairs, desks, and supplies" +:+ ")";
    "- line_items: Array of invoice line items, each with:";
    "  - description: Item/service description";
    "  - quantity: Number of units (number)";
    "  - unit_price: Price per unit (number with dot decimal)";
    "  - amount: Total for this line (number with dot decimal)";
    "";
    "Return ONLY the JSON object. Do not include any markdown code blocks, explanations, or additional text.";
    "";
    "If vendor numbers are not on invoices, provide them in the prompt:";
    "";
    "Known vendor numbers:" ].

(** The text after the vendor list (source lines 184-185). *)
Definition prompt_tail : list string :=
  [ "";
    "If you identify the vendor name, use the corresponding vendor_number from the list above." ].

Definition build_prompt (vendor_list : string) : string :=
  Str.join Str.newline (prompt_head ++ [vendor_list] ++ prompt_tail).

(** Markdown fence removal on the stripped answer (source lines 248-251). *)
Definition strip_fence (json_text : string) : string :=
  if Str.startswith json_text fence
  then Str.join Str.newline (Str.slice_1_m1 (Str.split Str.nl json_text))
  else json_text.

(** The string handed to [json.loads] for the answer [full_response]
    (source lines 247-253). *)
Definition answer_json_text (full_response : string) : string :=
  strip_fence (Str.strip full_response).

(** Loop control of the [for line in response.iter_lines()] loop. *)
Inductive control : Type :=
| Next (full_response : pyval)
| Break (full_response : pyval).

Definition set_conversation_id (v : pyval) : M unit :=
  fun w => (Ok tt, set_self (mkClient (base_url (self w)) v (parent_message_id (self w))) w).
Definition set_parent_message_id (v : pyval) : M unit :=
  fun w => (Ok tt, set_self (mkClient (base_url (self w)) (conversation_id (self w)) v) w).

(** [__init__] *)
Definition new_client (url : string) : client :=
  mkClient (Str.rstrip_char Path.slash url) PyNone PyNone.

Section Client.

(** The [json] module and the string conversions of Python are taken as
    given: [json.loads] (its exceptions included), [json.dumps] with
    [indent=2, ensure_ascii=False], [repr] of floats and containers, and
    [str] of an exception. *)
Variable json_loads : string -> outcome pyval.
Variable json_dumps : pyval -> string.
Variable py_repr : pyval -> string.
Variable exn_str : exn -> string.

(** [f"{v}"] *)
Definition py_str (v : pyval) : string :=
  match v with
  | PyStr s => s
  | PyNone => "None"
  | PyBool true => "True"
  | PyBool false => "False"
  | PyInt z => NilEmpty.string_of_int (Z.to_int z)
  | _ => py_repr v
  end.

(** [login] *)
Definition login (email password : string) : M bool :=
  let* w := get_world in
  let* resp := post (ReqLogin (base_url (self w) +:+ "/api/auth/login") email password) in
  if (status_code resp =? 200)%Z
  then print MsgLoginOk ;; ret true
  else print (MsgLoginFailed (status_code resp) (text resp)) ;; ret false.

(** [upload_file]: the file metadata, or [None] *)
Definition upload_file (file_path : string) : M pyval :=
  let* found := path_exists file_path in
  if negb found
  then print (MsgFileNotFound file_path) ;; ret PyNone
  else
    let* content := read_file file_path in
    let* w := get_world in
    let* resp := post (ReqUpload (base_url (self w) +:+ "/api/files/upload")
                                 (Path.name file_path) content "agents") in
    if (status_code resp =? 200)%Z
    then
      let* file_data := lift (json_loads (text resp)) in
      let* filename := lift (Py.get file_data "filename") in
      print (MsgFileUploaded filename) ;; ret file_data
    else print (MsgUploadFailed (status_code resp) (text resp)) ;; ret PyNone.

(** The vendor list of the prompt (source lines 122-125). *)
Definition vendor_line (item : string * pyval) : string :=
  "- " +:+ fst item +:+ ": " +:+ py_str (snd item).

Definition vendor_list (items : list (string * pyval)) : string :=
  Str.join Str.newline (map vendor_line items).

(** The body of the [try] of the streaming loop after [json.loads]
    (source lines 232-238). *)
Definition on_event (data full_response : pyval) : M pyval :=
  let* has_text := lift (Py.contains "text" data) in
  let* full_response :=
    (if has_text : bool then lift (Py.getitem data "text") else ret full_response) in
  let* has_conversation := lift (Py.contains "conversationId" data) in
  (if has_conversation : bool
   then let* v := lift (Py.getitem data "conversationId") in set_conversation_id v
   else ret tt) ;;
  let* has_message := lift (Py.contains "messageId" data) in
  (if has_message : bool
   then let* v := lift (Py.getitem data "messageId") in set_parent_message_id v
   else ret tt) ;;
  ret full_response.

(** One iteration of the streaming loop (source lines 223-240). *)
Definition process_line (line : string) (full_response : pyval) : M control :=
  if String.eqb line EmptyString then ret (Next full_response)
  else
    match Str.decode_utf8 line with
    | None => raise UnicodeDecodeError
    | Some line_text =>
        if Str.startswith line_text "data: "
        then
          let data_str := Str.slice_from 6 line_text in
          if String.eqb data_str "[DONE]" then ret (Break full_response)
          else
            match json_loads data_str with
            | Ok data =>
                let* full_response := on_event data full_response in
                ret (Next full_response)
            | Raised (JSONDecodeError _) => ret (Next full_response)
            | Raised e => raise e
            end
        else ret (Next full_response)
    end.

(** The streaming loop (source lines 222-240): the retained text. *)
Fixpoint consume (lines : list string) (full_response : pyval) : M pyval :=
  match lines with
  | [] => ret full_response
  | line :: rest =>
      let* c := process_line line full_response in
      match c with
      | Next full_response => consume rest full_response
      | Break full_response => ret full_response
      end
  end.

(** [json.loads(json_text)] and the [except json.JSONDecodeError] clause
    (source lines 253-258). *)
Definition decode_answer (json_text : string) (full_response : pyval) : M pyval :=
  match json_loads json_text with
  | Ok invoice_data => ret invoice_data
  | Raised (JSONDecodeError msg) =>
      print (MsgParseFailed msg) ;; print (MsgRawResponse full_response) ;; ret PyNone
  | Raised e => raise e
  end.

(** Parsing of the final answer (source lines 245-258). *)
Definition parse_answer (full_response : pyval) : M pyval :=
  let* json_text := lift (Py.strip full_response) in
  decode_answer (strip_fence json_text) full_response.

(** The request payload (source lines 188-204). *)
Definition build_payload (file_data : pyval) (model prompt : string)
    (conversation_id : pyval) : M pyval :=
  let* w := get_world in
  let* file_id := lift (Py.get file_data "file_id") in
  let* filepath := lift (Py.get file_data "filepath") in
  let* filename := lift (Py.get file_data "filename") in
  let* type := lift (Py.get file_data "type") in
  let* height := lift (Py.get file_data "height") in
  let* width := lift (Py.get file_data "width") in
  ret (PyDict
         [ ("endpoint", PyStr "agents");
           ("model", PyStr model);
           ("text", PyStr prompt);
           ("conversationId", Py.or_else conversation_id (PyStr "new"));
           ("parentMessageId", Py.or_else (parent_message_id (self w)) (PyStr nil_uuid));
           ("files", PyList [ PyDict [ ("file_id", file_id); ("filepath", filepath);
                                       ("filename", filename); ("type", type);
                                       ("height", height); ("width", width) ] ]) ]).

(** [extract_invoice]: the extracted data, or [None] *)
Definition extract_invoice (file_data vendor_mappings : pyval) (model : string)
    (conversation_id : pyval) : M pyval :=
  let* items := lift (Py.items vendor_mappings) in
  let prompt := build_prompt (vendor_list items) in
  let* payload := build_payload file_data model prompt conversation_id in
  print (MsgSending model) ;;
  let* w := get_world in
  let* resp := post (ReqAsk (base_url (self w) +:+ "/api/ask/agents") payload) in
  if negb (status_code resp =? 200)%Z
  then print (MsgExtractionFailed (status_code resp) (text resp)) ;; ret PyNone
  else
    let* full_response := consume (iter_lines resp) (PyStr EmptyString) in
    print MsgExtractionComplete ;;
    parse_answer full_response.

(** [open(p, 'r', encoding='utf-8')] and [json.load] *)
Definition load_json_file (p : string) : M pyval :=
  let* content := read_file p in
  match Str.decode_utf8 content with
  | None => raise UnicodeDecodeError
  | Some content_text => lift (json_loads content_text)
  end.

Definition default_vendor_mappings : pyval :=
  PyDict [ ("ACME Corp", PyStr "V12345");
           ("Global Supplies GmbH", PyStr "V67890");
           ("Tech Solutions Ltd", PyStr "V24680");
           ("Office Depot", PyStr "V13579");
           ("Staples Inc", PyStr "V98765") ].

(** A command-line option that is absent or empty is falsy. *)
Definition given (o : option string) : option string :=
  match o with
  | Some s => if String.eqb s EmptyString then None else Some s
  | None => None
  end.

(** [load_vendor_mappings] *)
Definition load_vendor_mappings (vendors_file : option string) : M pyval :=
  match given vendors_file with
  | Some p =>
      let* found := path_exists p in
      if found : bool then load_json_file p else ret default_vendor_mappings
  | None => ret default_vendor_mappings
  end.

(** ** The single-file command line: [main] *)

Record Args : Type := mkArgs {
  arg_pdf : string;
  arg_email : option string;
  arg_password : option string;
  arg_url : string;
  arg_model : string;
  arg_vendors : option string;
  arg_output : option string
}.

Definition with_suffix_json (p : string) : M string :=
  match Path.with_suffix_json p with
  | Some q => ret q
  | None => raise ValueError
  end.

(** [main], from the validation of the arguments on (source lines 326-377):
    the returned exit status. *)
Definition main (args : Args) : M Z :=
  match given (arg_email args), given (arg_password args) with
  | Some email, Some password =>
      (fun w => (Ok tt, set_self (new_client (arg_url args)) w)) ;;
      let* logged_in := login email password in
      if negb logged_in then ret 1%Z
      else
        let* vendor_mappings := load_vendor_mappings (arg_vendors args) in
        let* n := lift (Py.len vendor_mappings) in
        print (MsgLoadedVendors n) ;;
        let* file_data := upload_file (arg_pdf args) in
        if negb (Py.truthy file_data) then ret 1%Z
        else
          let* invoice_data :=
            extract_invoice file_data vendor_mappings (arg_model args) PyNone in
          if negb (Py.truthy invoice_data) then ret 1%Z
          else
            print (MsgInvoiceData (json_dumps invoice_data)) ;;
            let* vendor := lift (Py.get invoice_data "vendor") in
            let* vendor_number := lift (Py.get invoice_data "vendor_number") in
            let* invoice_number := lift (Py.get invoice_data "invoice_number") in
            let* invoice_date := lift (Py.get invoice_data "invoice_date") in
            let* total_amount := lift (Py.get invoice_data "total_amount") in
            let* currency := lift (Py.get invoice_data "currency") in
            let* item_summary := lift (Py.get invoice_data "item_summary") in
            print (MsgInvoiceSummary vendor vendor_number invoice_number invoice_date
                                     total_amount currency item_summary) ;;
            let* output_path :=
              match given (arg_output args) with
              | Some o => ret o
              | None => with_suffix_json (arg_pdf args)
              end in
            write_file output_path (json_dumps invoice_data) ;;
            print (MsgSavedTo output_path) ;;
            ret 0%Z
  | _, _ => raise (SystemExit 2)
  end.

(** [exit(main())]: the exit status of the process; an exception that is
    not caught ends the interpreter with status 1. *)
Definition exit_status (r : outcome Z) : Z :=
  match r with
  | Ok code => code
  | Raised (SystemExit code) => code
  | Raised _ => 1%Z
  end.

Definition run_main (args : Args) (w : World) : Z := exit_status (fst (main args w)).

(** ** The batch driver: [process_invoice_folder] *)

Definition result_success (name : string) (invoice_data : pyval) : pyval :=
  PyDict [ ("file", PyStr name); ("status", PyStr "success"); ("data", invoice_data) ].

Definition result_error (name : string) (error : string) : pyval :=
  PyDict [ ("file", PyStr name); ("status", PyStr "error"); ("error", PyStr error) ].

Definition is_success (r : pyval) : bool :=
  match Py.getitem r "status" with
  | Ok (PyStr s) => String.eqb s "success"
  | _ => false
  end.

(** [except Exception] does not catch [SystemExit]. *)
Definition except_Exception {A : Type} (m : M A) (h : exn -> M A) : M A :=
  try_except m (fun e => match e with SystemExit _ => raise e | _ => h e end).

(** The body of the loop over the PDFs (source lines 70-107): the results
    list after this file. *)
Definition process_pdf (vendors : pyval) (output_dir : string) (i n : nat)
    (pdf_path : string) (results : list pyval) : M (list pyval) :=
  print (MsgProcessing i n (Path.name pdf_path)) ;;
  except_Exception
    (let* file_data := upload_file pdf_path in
     if negb (Py.truthy file_data)
     then print MsgBatchUploadFailed ;; ret results
     else
       let* invoice_data := extract_invoice file_data vendors default_model PyNone in
       if negb (Py.truthy invoice_data)
       then print MsgBatchExtractionFailed ;; ret results
       else
         let* json_path := with_suffix_json pdf_path in
         let output_path := Path.joinpath output_dir (Path.name json_path) in
         write_file output_path (json_dumps invoice_data) ;;
         print (MsgBatchSaved output_path) ;;
         let* vendor := lift (Py.get invoice_data "vendor") in
         let* invoice_number := lift (Py.get invoice_data "invoice_number") in
         let* total_amount := lift (Py.get invoice_data "total_amount") in
         let* currency := lift (Py.get invoice_data "currency") in
         print (MsgBatchDetails vendor invoice_number total_amount currency) ;;
         ret (results ++ [result_success (Path.name pdf_path) invoice_data]))
    (fun e =>
       print (MsgBatchError (exn_str e)) ;;
       ret (results ++ [result_error (Path.name pdf_path) (exn_str e)])).

Fixpoint process_pdfs (vendors : pyval) (output_dir : string) (i n : nat)
    (pdfs : list string) (results : list pyval) : M (list pyval) :=
  match pdfs with
  | [] => ret results
  | pdf_path :: rest =>
      let* results := process_pdf vendors output_dir i n pdf_path results in
      process_pdfs vendors output_dir (S i) n rest results
  end.

(** [process_invoice_folder] *)
Definition process_invoice_folder (folder_path vendors_file librechat_url email password : string)
    (output_folder : option string) : M unit :=
  (fun w => (Ok tt, set_self (new_client librechat_url) w)) ;;
  print (MsgLoggingIn librechat_url) ;;
  let* logged_in := login email password in
  if negb logged_in then print MsgBatchLoginFailed
  else
    let* vendors := load_json_file vendors_file in
    let* n := lift (Py.len vendors) in
    print (MsgLoadedVendors n) ;;
    let* pdfs := glob_pdf folder_path in
    print (MsgFoundPdfs (length pdfs)) ;;
    match pdfs with
    | [] => print MsgNoPdfs
    | _ :: _ =>
        let output_dir :=
          match given output_folder with Some o => o | None => folder_path end in
        mkdir_exist_ok output_dir ;;
        let* results := process_pdfs vendors output_dir 1 (length pdfs) pdfs [] in
        let successful := length (filter (fun r => Is_true (is_success r)) results) in
        let failed := length results - successful in
        print (MsgBatchComplete (length results) successful failed) ;;
        let summary_path := Path.joinpath output_dir "batch_summary.json" in
        write_file summary_path (json_dumps (PyList results)) ;;
        print (MsgSummarySaved summary_path)
    end.

End Client.

(** ** A JSON reader and writer for concrete runs

    [MiniJson.loads] and [MiniJson.dumps] stand in for [json.loads] and
    [json.dumps(indent=2, ensure_ascii=False)] when a run is evaluated on
    concrete data.  They cover JSON without floating-point numbers and
    without [\u] escapes; [loads] rejects everything else. *)

Module MiniJson.

Definition quote : ascii := "034"%char.
Definition backslash : ascii := "092"%char.

Definition is_ws (c : ascii) : bool :=
  Ascii.eqb c " "%char || Ascii.eqb c "009"%char || Ascii.eqb c "010"%char
  || Ascii.eqb c "013"%char.

Fixpoint skip_ws (s : string) : string :=
  match s with
  | String c r => if is_ws c then skip_ws r else s
  | EmptyString => s
  end.

Definition is_digit (c : ascii) : bool := Str.in_range 48 57 c.

Fixpoint digits (s : string) (acc : Z) : Z * string :=
  match s with
  | String c r =>
      if is_digit c then digits r (10 * acc + Z.of_nat (Str.byte c - 48))%Z
      else (acc, s)
  | EmptyString => (acc, s)
  end.

(** An integer literal: [0] or a non-zero digit followed by digits; a
    fraction or an exponent after it is outside the fragment. *)
Definition natural (s : string) : option (Z * string) :=
  match s with
  | String c r =>
      if Ascii.eqb c "0"%char then Some (0%Z, r)
      else if is_digit c then Some (digits s 0%Z)
      else None
  | EmptyString => None
  end.

Definition no_fraction (s : string) : bool :=
  match s with
  | String c _ => negb (Ascii.eqb c "."%char || Ascii.eqb c "e"%char || Ascii.eqb c "E"%char)
  | EmptyString => true
  end.

Definition number (s : string) : option (pyval * string) :=
  match s with
  | String c r =>
      if Ascii.eqb c "-"%char
      then match natural r with
           | Some (z, rest) => if no_fraction rest then Some (PyInt (- z), rest) else None
           | None => None
           end
      else match natural s with
           | Some (z, rest) => if no_fraction rest then Some (PyInt z, rest) else None
           | None => None
           end
  | EmptyString => None
  end.

Definition unescape (c : ascii) : option ascii :=
  if Ascii.eqb c quote then Some quote
  else if Ascii.eqb c backslash then Some backslash
  else if Ascii.eqb c "/"%char then Some "/"%char
  else if Ascii.eqb c "b"%char then Some "008"%char
  else if Ascii.eqb c "f"%char then Some "012"%char
  else if Ascii.eqb c "n"%char then Some "010"%char
  else if Ascii.eqb c "r"%char then Some "013"%char
  else if Ascii.eqb c "t"%char then Some "009"%char
  else None.

(** The characters of a string literal after its opening quote. *)
Fixpoint chars (s : string) : option (string * string) :=
  match s with
  | EmptyString => None
  | String c r =>
      if Ascii.eqb c quote then Some (EmptyString, r)
      else if Ascii.eqb c backslash then
        match r with
        | String e r' =>
            match unescape e, chars r' with
            | Some a, Some (body, rest) => Some (String a body, rest)
            | _, _ => None
            end
        | EmptyString => None
        end
      else if Str.byte c <? 32 then None
      else match chars r with
           | Some (body, rest) => Some (String c body, rest)
           | None => None
           end
  end.

(** [d[k] = v] on a dict: an existing key keeps its place. *)
Fixpoint dict_set (d : list (string * pyval)) (k : string) (v : pyval) : list (string * pyval) :=
  match d with
  | [] => [(k, v)]
  | (k', v') :: r => if String.eqb k' k then (k, v) :: r else (k', v') :: dict_set r k v
  end.

Section Containers.
Variable value : string -> option (pyval * string).

Fixpoint elements (fuel : nat) (s : string) (acc : list pyval) : option (list pyval * string) :=
  match fuel with
  | O => None
  | S fuel' =>
      match value s with
      | Some (v, r) =>
          match skip_ws r with
          | String c r' =>
              if Ascii.eqb c ","%char then elements fuel' r' (acc ++ [v])
              else if Ascii.eqb c "]"%char then Some (acc ++ [v], r')
              else None
          | EmptyString => None
          end
      | None => None
      end
  end.

Fixpoint members (fuel : nat) (s : string) (acc : list (string * pyval))
  : option (list (string * pyval) * string) :=
  match fuel with
  | O => None
  | S fuel' =>
      match skip_ws s with
      | String q r =>
          if Ascii.eqb q quote then
            match chars r with
            | Some (k, r1) =>
                match skip_ws r1 with
                | String colon r2 =>
                    if Ascii.eqb colon ":"%char then
                      match value r2 with
                      | Some (v, r3) =>
                          match skip_ws r3 with
                          | String c r4 =>
                              if Ascii.eqb c ","%char then members fuel' r4 (dict_set acc k v)
                              else if Ascii.eqb c "}"%char then Some (dict_set acc k v, r4)
                              else None
                          | EmptyString => None
                          end
                      | None => None
                      end
                    else None
                | EmptyString => None
                end
            | None => None
            end
          else None
      | EmptyString => None
      end
  end.

End Containers.

Fixpoint value (fuel : nat) (s : string) : option (pyval * string) :=
  match fuel with
  | O => None
  | S fuel' =>
      match skip_ws s with
      | EmptyString => None
      | String c r as t =>
          if Str.startswith t "null" then Some (PyNone, Str.slice_from 4 t)
          else if Str.startswith t "true" then Some (PyBool true, Str.slice_from 4 t)
          else if Str.startswith t "false" then Some (PyBool false, Str.slice_from 5 t)
          else if Ascii.eqb c quote then
            match chars r with
            | Some (body, rest) => Some (PyStr body, rest)
            | None => None
            end
          else if Ascii.eqb c "["%char then
            match skip_ws r with
            | String c' r' =>
                if Ascii.eqb c' "]"%char then Some (PyList [], r')
                else match elements (value fuel') (String.length r) r [] with
                     | Some (l, rest) => Some (PyList l, rest)
                     | None => None
                     end
            | EmptyString => None
            end
          else if Ascii.eqb c "{"%char then
            match skip_ws r with
            | String c' r' =>
                if Ascii.eqb c' "}"%char then Some (PyDict [], r')
                else match members (value fuel') (String.length r) r [] with
                     | Some (d, rest) => Some (PyDict d, rest)
                     | None => None
                     end
            | EmptyString => None
            end
          else number t
      end
  end.

(** [json.loads] on the fragment; the message of the error is not modelled. *)
Definition loads (s : string) : outcome pyval :=
  match value (S (String.length s)) s with
  | Some (v, rest) =>
      match skip_ws rest with
      | EmptyString => Ok v
      | String _ _ => Raised (JSONDecodeError "Extra data")
      end
  | None => Raised (JSONDecodeError "Expecting value")
  end.

Definition hex_digit (n : nat) : ascii :=
  ascii_of_nat (if n <? 10 then 48 + n else 87 + n).

(** The escapes [json.dumps] writes with [ensure_ascii=False]. *)
Definition escape_char (c : ascii) : string :=
  if Ascii.eqb c quote then String backslash (String quote EmptyString)
  else if Ascii.eqb c backslash then String backslash (String backslash EmptyString)
  else if Ascii.eqb c "010"%char then String backslash "n"
  else if Ascii.eqb c "013"%char then String backslash "r"
  else if Ascii.eqb c "009"%char then String backslash "t"
  else if Ascii.eqb c "008"%char then String backslash "b"
  else if Ascii.eqb c "012"%char then String backslash "f"
  else if Str.byte c <? 32
       then String backslash
              ("u00" +:+ String (hex_digit (Str.byte c / 16))
                         (String (hex_digit (Str.byte c mod 16)) EmptyString))
       else String c EmptyString.

Fixpoint escape (s : string) : string :=
  match s with
  | EmptyString => EmptyString
  | String c r => escape_char c +:+ escape r
  end.

Definition literal (s : string) : string :=
  String quote (escape s) +:+ String quote EmptyString.

(** [json.dumps(v, indent=2, ensure_ascii=False)] at the indentation
    [indent]; floating-point numbers are outside the fragment. *)
Fixpoint dumps_at (indent : string) (v : pyval) : string :=
  match v with
  | PyNone => "null"
  | PyBool true => "true"
  | PyBool false => "false"
  | PyInt z => NilEmpty.string_of_int (Z.to_int z)
  | PyFloat _ => "NaN"
  | PyStr s => literal s
  | PyList [] => "[]"
  | PyList l =>
      let inner := "  " +:+ indent in
      "[" +:+ Str.newline
      +:+ (fix items (l : list pyval) : string :=
             match l with
             | [] => EmptyString
             | x :: r =>
                 inner +:+ dumps_at inner x
                 +:+ match r with
                     | [] => EmptyString
                     | _ :: _ => "," +:+ Str.newline +:+ items r
                     end
             end) l
      +:+ Str.newline +:+ indent +:+ "]"
  | PyDict [] => "{}"
  | PyDict d =>
      let inner := "  " +:+ indent in
      "{" +:+ Str.newline
      +:+ (fix items (d : list (string * pyval)) : string :=
             match d with
             | [] => EmptyString
             | (k, x) :: r =>
                 inner +:+ literal k +:+ ": " +:+ dumps_at inner x
                 +:+ match r with
                     | [] => EmptyString
                     | _ :: _ => "," +:+ Str.newline +:+ items r
                     end
             end) d
      +:+ Str.newline +:+ indent +:+ "}"
  end.

Definition dumps (v : pyval) : string := dumps_at EmptyString v.

(** [repr] of floats and containers is not needed in the runs below. *)
Definition repr (v : pyval) : string := dumps v.

(** [str(e)] for the exceptions raised in the runs below. *)
Definition exn_str (e : exn) : string :=
  match e with
  | JSONDecodeError msg => msg
  | FileNotFoundError p => "[Errno 2] No such file or directory: '" +:+ p +:+ "'"
  | IsADirectoryError p => "[Errno 21] Is a directory: '" +:+ p +:+ "'"
  | FileExistsError p => "[Errno 17] File exists: '" +:+ p +:+ "'"
  | OSError p => "[Errno 13] Permission denied: '" +:+ p +:+ "'"
  | KeyError k => "'" +:+ k +:+ "'"
  | SystemExit code => NilEmpty.string_of_int (Z.to_int code)
  | UnicodeDecodeError => "'utf-8' codec can't decode"
  | TypeError => "TypeError"
  | AttributeError => "AttributeError"
  | ValueError => "ValueError"
  | ConnectionError => "ConnectionError"
  end.

End MiniJson.

(** ** The properties, in the words of the specification *)

Module Spec.

Section Events.
Variable json_loads : string -> outcome pyval.

(** The payloads of the [data: ]-prefixed lines that are JSON, up to the
    first [data: [DONE]] line. *)
Fixpoint events (lines : list string) : list pyval :=
  match lines with
  | [] => []
  | line :: rest =>
      if Str.startswith line "data: " then
        let payload := Str.slice_from 6 line in
        if String.eqb payload "[DONE]" then []
        else match json_loads payload with
             | Ok data => data :: events rest
             | Raised _ => events rest
             end
      else events rest
  end.

(** The value of field [k] in the last event that has one. *)
Fixpoint last_field (k : string) (evs : list pyval) : option pyval :=
  match evs with
  | [] => None
  | ev :: rest =>
      match last_field k rest with
      | Some v => Some v
      | None => match ev with PyDict d => Py.lookup d k | _ => None end
      end
  end.

Definition is_object (v : pyval) : bool :=
  match v with PyDict _ => true | _ => false end.

(** A well-formed event stream: up to the first [data: [DONE]] line every
    line is UTF-8 text and every [data: ] payload is either rejected by
    [json.loads] with [JSONDecodeError] or is a JSON object. *)
Fixpoint well_formed (lines : list string) : bool :=
  match lines with
  | [] => true
  | line :: rest =>
      Str.utf8_valid line &&
      (if Str.startswith line "data: " then
         let payload := Str.slice_from 6 line in
         if String.eqb payload "[DONE]" then true
         else match json_loads payload with
              | Ok data => is_object data && well_formed rest
              | Raised (JSONDecodeError _) => well_formed rest
              | Raised _ => false
              end
       else well_formed rest)
  end.

End Events.

(** The identifiers kept on the client after the events [evs] of a stream:
    each is the value of the last event that carries the field. *)
Definition after_stream (evs : list pyval) (w : World) : World :=
  set_self
    (mkClient (base_url (self w))
              (default (conversation_id (self w)) (last_field "conversationId" evs))
              (default (parent_message_id (self w)) (last_field "messageId" evs)))
    w.

(** The identifiers kept on the client after one event that is the JSON
    object [d]. *)
Definition ids_after (d : list (string * pyval)) (w : World) : World :=
  set_self
    (mkClient (base_url (self w))
              (default (conversation_id (self w)) (Py.lookup d "conversationId"))
              (default (parent_message_id (self w)) (Py.lookup d "messageId")))
    w.

(** Fence stripping as the specification words it: decided on the answer
    text itself. *)
Definition stated_json_text (full_response : string) : string :=
  if Str.startswith full_response fence
  then Str.join Str.newline (Str.slice_1_m1 (Str.split Str.nl full_response))
  else full_response.

(** The lines of a block of text. *)
Definition block_lines (block : string) : list string :=
  if String.eqb block EmptyString then [] else Str.split Str.nl block.

Definition single_line (s : string) : Prop := Str.has_char Str.nl s = false.

(** [parentMessageId] as the specification words it: the last [messageId]
    of the earlier events, the nil UUID when there is none. *)
Definition stated_parent (earlier : list pyval) : pyval :=
  match last_field "messageId" earlier with
  | Some v => v
  | None => PyStr nil_uuid
  end.

(** What is sent: a falsy [messageId] gives the nil UUID as well. *)
Definition sent_parent (earlier : list pyval) : pyval :=
  match last_field "messageId" earlier with
  | Some v => Py.or_else v (PyStr nil_uuid)
  | None => PyStr nil_uuid
  end.

(** The events the client consumes from the response to a request: those
    of the stream when the status is 200, none otherwise. *)
Definition response_events (json_loads : string -> outcome pyval)
    (o : option response) : list pyval :=
  match o with
  | Some resp =>
      if (status_code resp =? 200)%Z then events json_loads (iter_lines resp) else []
  | None => []
  end.

(** The [/api/ask] exchanges of a request history: each payload with the
    events of the response to it. *)
Fixpoint exchanges (json_loads : string -> outcome pyval)
    (srv : list request -> request -> option response)
    (history todo : list request) : list (pyval * list pyval) :=
  match todo with
  | [] => []
  | r :: rest =>
      match r with
      | ReqAsk _ payload => [(payload, response_events json_loads (srv history r))]
      | _ => []
      end ++ exchanges json_loads srv (history ++ [r]) rest
  end.

(** All events of a list of exchanges, in order. *)
Definition all_events (xs : list (pyval * list pyval)) : list pyval :=
  concat (map snd xs).

(** A field of a request payload. *)
Definition payload_field (payload : pyval) (k : string) : option pyval :=
  match payload with
  | PyDict d => Py.lookup d k
  | _ => None
  end.

(** The exchanges [xs] of a client that holds [stored] as its last message
    identifier: every payload starts a new conversation and carries the
    identifier stored when it was sent. *)
Fixpoint chain (stored : pyval) (xs : list (pyval * list pyval)) : Prop :=
  match xs with
  | [] => True
  | (payload, evs) :: rest =>
      payload_field payload "conversationId" = Some (PyStr "new")
      /\ payload_field payload "parentMessageId"
         = Some (Py.or_else stored (PyStr nil_uuid))
      /\ chain (default stored (last_field "messageId" evs)) rest
  end.

End Spec.

(** A sequence of calls on one client object; the caller catches what a
    call raises, as the batch driver does. *)
Inductive action : Type :=
| CallLogin (email password : string)
| CallUpload (file_path : string)
| CallExtract (file_data vendor_mappings : pyval) (model : string).

Section Calls.
Variable json_loads : string -> outcome pyval.
Variable py_repr : pyval -> string.

Definition perform (a : action) : M unit :=
  try_except
    match a with
    | CallLogin email password => login email password ;; ret tt
    | CallUpload file_path => upload_file json_loads file_path ;; ret tt
    | CallExtract file_data vendor_mappings model =>
        extract_invoice json_loads py_repr file_data vendor_mappings model PyNone ;; ret tt
    end
    (fun _ => ret tt).

Fixpoint perform_all (l : list action) : M unit :=
  match l with
  | [] => ret tt
  | a :: rest => perform a ;; perform_all rest
  end.

End Calls.

(** ** The vendor list, in the words of the specification *)

(** A vendor mapping from name to number, both strings. *)
Definition vendor_items (m : list (string * string)) : list (string * pyval) :=
  map (fun kv => (fst kv, PyStr (snd kv))) m.

Definition stated_vendor_line (kv : string * string) : string :=
  "- " +:+ fst kv +:+ ": " +:+ snd kv.

(** Exactly one line per mapping, of the stated form, in the mapping's order. *)
Definition one_line_per_mapping (py_repr : pyval -> string) (m : list (string * string)) : Prop :=
  Spec.block_lines (vendor_list py_repr (vendor_items m)) = map stated_vendor_line m.

(** ** Sample data for concrete runs *)

Definition sample_vendors : list (string * string) :=
  [ ("ACME Corp", "V12345"); ("Office Depot", "V13579") ].

(** A vendor whose display name runs over two lines. *)
Definition two_line_vendor : list (string * string) :=
  [ ("Acme" +:+ Str.newline +:+ "Ltd", "V1") ].

(** An answer wrapped in a markdown fence that follows an empty line. *)
Definition sample_object : string := "{" +:+ quoted "vendor" +:+ ": " +:+ quoted "ACME Corp" +:+ "}".

Definition fenced_answer : string :=
  Str.newline +:+ fence +:+ "json" +:+ Str.newline +:+ sample_object +:+ Str.newline +:+ fence.

(** An answer without a fence, ending in a newline. *)
Definition plain_answer : string := sample_object +:+ Str.newline.

(** A world with no files, a backend that never answers, and a new client. *)
Definition empty_world : World :=
  mkWorld ∅ ∅ (fun _ _ => None) [] [] (new_client "http://localhost:3080").

(** Streamed lines. *)
Definition data_line (payload : string) : string := "data: " +:+ payload.

Definition field (k : string) (v : string) : string := quoted k +:+ ": " +:+ MiniJson.literal v.

Definition text_event (s : string) : string := data_line ("{" +:+ field "text" s +:+ "}").

(** A stream whose first event is the JSON number 5. *)
Definition number_then_text : list string := [ data_line "5"; text_event "x" ].

(** A stream whose first line is the single byte 0xFF. *)
Definition bad_utf8_then_text : list string :=
  [ String (ascii_of_nat 255) EmptyString; text_event "x" ].

(** A stream with a malformed event between two text events, and an event
    after the end marker. *)
Definition sample_stream : list string :=
  [ text_event "par"; EmptyString; data_line "{not json"; ": keep-alive";
    text_event "partial answer"; data_line "[DONE]"; text_event "late" ].

(** ** A scripted backend and sample worlds *)

(** The [filename] of the attachment of an [/api/ask] payload. *)
Definition attachment_name (payload : pyval) : string :=
  match payload with
  | PyDict d =>
      match Py.lookup d "files" with
      | Some (PyList (PyDict f :: _)) =>
          match Py.lookup f "filename" with
          | Some (PyStr n) => n
          | _ => EmptyString
          end
      | _ => EmptyString
      end
  | _ => EmptyString
  end.

Definition upload_body (name : string) : string :=
  "{" +:+ field "file_id" ("id-" +:+ name) +:+ ", "
      +:+ field "filepath" ("/uploads/" +:+ name) +:+ ", "
      +:+ field "filename" name +:+ ", "
      +:+ field "type" "application/pdf" +:+ "}".

(** A backend that accepts the password ["secret"], stores the files
    [upload_ok] accepts (status 500 for the others) and answers a request
    about the file [n] with the lines [stream_for n]. *)
Definition backend (upload_ok : string -> bool) (stream_for : string -> list string)
    (history : list request) (r : request) : option response :=
  match r with
  | ReqLogin _ _ password =>
      if String.eqb password "secret"
      then Some (mkResponse 200 "{}" [])
      else Some (mkResponse 401 "Unauthorized" [])
  | ReqUpload _ filename _ _ =>
      if upload_ok filename
      then Some (mkResponse 200 (upload_body filename) [])
      else Some (mkResponse 500 "Internal Server Error" [])
  | ReqAsk _ payload =>
      Some (mkResponse 200 EmptyString (stream_for (attachment_name payload)))
  end.

Definition ids_event (conversation message : string) : string :=
  data_line ("{" +:+ field "conversationId" conversation +:+ ", "
                 +:+ field "messageId" message +:+ "}").

(** The stream of a complete answer: the identifiers, a first part of the
    text, the whole text, the end marker. *)
Definition answer_stream (conversation message answer : string) : list string :=
  [ ids_event conversation message; text_event "{"; text_event answer; data_line "[DONE]" ].

Definition files_of (l : list (string * string)) : gmap string node :=
  list_to_map (map (fun pc => (fst pc, File (snd pc))) l).

Definition world_of (files : list (string * string))
    (srv : list request -> request -> option response) : World :=
  mkWorld (files_of files) ∅ srv [] [] (new_client EmptyString).

Definition vendors_json : string := "{" +:+ field "ACME Corp" "V1" +:+ "}".

Definition good_stream (n : string) : list string :=
  answer_stream ("conv-" +:+ n) ("msg-" +:+ n) sample_object.

(** A folder with three invoices; the upload of [b.pdf] is refused. *)
Definition three_invoices : World :=
  world_of [ ("invoices/a.pdf", "%PDF-a"); ("invoices/b.pdf", "%PDF-b");
             ("invoices/c.pdf", "%PDF-c"); ("vendors.json", vendors_json) ]
           (backend (fun n => negb (String.eqb n "b.pdf")) good_stream).

(** A folder with two invoices; the answer for [b.pdf] is not JSON. *)
Definition two_invoices : World :=
  world_of [ ("invoices/a.pdf", "%PDF-a"); ("invoices/b.pdf", "%PDF-b");
             ("vendors.json", vendors_json) ]
           (backend (fun _ => true)
                    (fun n => if String.eqb n "b.pdf"
                              then answer_stream "conv-b" "msg-b" "Sorry, I cannot read this invoice."
                              else good_stream n)).

(** One invoice and no vendor file. *)
Definition no_vendor_file : World :=
  world_of [ ("invoices/a.pdf", "%PDF-a") ] (backend (fun _ => true) good_stream).

Definition batch (w : World) : outcome unit * World :=
  process_invoice_folder MiniJson.loads MiniJson.dumps MiniJson.repr MiniJson.exn_str
    "invoices" "vendors.json" "http://localhost:3080/" "user@example.com" "secret" None w.

Definition cli_args (pdf password : string) (vendors : option string) : Args :=
  mkArgs pdf (Some "user@example.com") (Some password) "http://localhost:3080"
         default_model vendors None.

Definition cli (args : Args) (w : World) : outcome Z * World :=
  main MiniJson.loads MiniJson.dumps MiniJson.repr args w.

(** The summary file of a batch run, read back. *)
Definition summary_of (w : World) : outcome pyval :=
  match fs w !! "invoices/batch_summary.json" with
  | Some (File c) => MiniJson.loads c
  | _ => Raised (FileNotFoundError "invoices/batch_summary.json")
  end.

(** An output file, read back. *)
Definition output_of (p : string) (w : World) : option (outcome pyval) :=
  match fs w !! p with
  | Some (File c) => Some (MiniJson.loads c)
  | _ => None
  end.

Definition sample_invoice : pyval := PyDict [ ("vendor", PyStr "ACME Corp") ].

(** The command line without its [--vendors] option. *)
Definition without_vendors (args : Args) : Args :=
  mkArgs (arg_pdf args) (arg_email args) (arg_password args) (arg_url args)
         (arg_model args) None (arg_output args).

(** The world in which the batch driver logs in: a new client, one line
    printed. *)
Definition batch_start (librechat_url : string) (w : World) : World :=
  set_console (console w ++ [MsgLoggingIn librechat_url])
              (set_self (new_client librechat_url) w).

(** Where [main] saves the result: [--output], or the PDF path with the
    suffix [.json]. *)
Definition output_path_of (args : Args) : option string :=
  match given (arg_output args) with
  | Some o => Some o
  | None => Path.with_suffix_json (arg_pdf args)
  end.

(** A backend that answers the request about [a.pdf] with two identifier
    events, the second with an empty [messageId]. *)
Definition empty_id_stream : list string :=
  [ ids_event "conv-1" "msg-1"; ids_event "conv-1" EmptyString;
    text_event sample_object; data_line "[DONE]" ].

Definition fixed_stream : list string := answer_stream "conv-2" "msg-2" sample_object.

Definition empty_id_world : World :=
  world_of [] (backend (fun _ => true)
                       (fun n => if String.eqb n "a.pdf" then empty_id_stream else fixed_stream)).

Definition uploaded (name : string) : pyval :=
  PyDict [ ("file_id", PyStr ("id-" +:+ name)); ("filepath", PyStr ("/uploads/" +:+ name));
           ("filename", PyStr name); ("type", PyStr "application/pdf") ].

(** Three extractions on one client: [a.pdf], then [b.pdf] and [c.pdf]. *)
Definition three_calls : list action :=
  [ CallExtract (uploaded "a.pdf") default_vendor_mappings default_model;
    CallExtract (uploaded "b.pdf") default_vendor_mappings default_model;
    CallExtract (uploaded "c.pdf") default_vendor_mappings default_model ].

Definition exchanges_of (actions : list action) (w : World) : list (pyval * list pyval) :=
  Spec.exchanges MiniJson.loads (server w) []
    (sent (snd (perform_all MiniJson.loads MiniJson.repr actions w))).

(** ** Effects of the client methods on the request history *)

(** A step that leaves the client as it is and sends no [/api/ask] request. *)
Definition quiet (json_loads : string -> outcome pyval) (w w' : World) : Prop :=
  server w' = server w /\ self w' = self w
  /\ exists new, sent w' = sent w ++ new
                 /\ forall history, Spec.exchanges json_loads (server w) history new = [].

(** A step that sends one [/api/ask] request and keeps the last [messageId]
    of the events of the answer. *)
Definition asked (json_loads : string -> outcome pyval) (w w' : World) : Prop :=
  server w' = server w
  /\ exists url payload,
       sent w' = sent w ++ [ReqAsk url payload]
       /\ Spec.payload_field payload "conversationId" = Some (PyStr "new")
       /\ Spec.payload_field payload "parentMessageId"
          = Some (Py.or_else (parent_message_id (self w)) (PyStr nil_uuid))
       /\ parent_message_id (self w')
          = default (parent_message_id (self w))
              (Spec.last_field "messageId"
                 (Spec.response_events json_loads
                    (server w (sent w) (ReqAsk url payload)))).

(** Any number of steps. *)
Definition advance (json_loads : string -> outcome pyval) (w w' : World) : Prop :=
  server w' = server w
  /\ exists new,
       sent w' = sent w ++ new
       /\ Spec.chain (parent_message_id (self w))
            (Spec.exchanges json_loads (server w) (sent w) new)
       /\ parent_message_id (self w')
          = default (parent_message_id (self w))
              (Spec.last_field "messageId"
                 (Spec.all_events (Spec.exchanges json_loads (server w) (sent w) new))).

(** The streamed answers of the backend are well-formed event streams. *)
Definition well_formed_backend (json_loads : string -> outcome pyval)
    (srv : list request -> request -> option response) : Prop :=
  forall history url payload resp,
    srv history (ReqAsk url payload) = Some resp ->
    status_code resp = 200%Z ->
    Spec.well_formed json_loads (iter_lines resp) = true.

(** A backend that answers the request about [a.pdf] with a stream whose
    first event is the JSON number 5. *)
Definition number_first_stream : list string :=
  [ data_line "5"; ids_event "conv-1" "msg-9"; text_event sample_object; data_line "[DONE]" ].

Definition number_first_world : World :=
  world_of [] (backend (fun _ => true)
                       (fun n => if String.eqb n "a.pdf" then number_first_stream
                                 else fixed_stream)).

(** ** Frames: what a step leaves as it is *)

(** The files, the backend and the address of the client are the same. *)
Definition same_files (w w' : World) : Prop :=
  fs w' = fs w /\ denied w' = denied w /\ server w' = server w
  /\ base_url (self w') = base_url (self w).

(** Nothing but the two identifiers kept on the client differs. *)
Definition only_ids_differ (w w' : World) : Prop :=
  same_files w w' /\ sent w' = sent w /\ console w' = console w.

(** The client object is the same. *)
Definition same_client (w w' : World) : Prop := self w' = self w.

(** The requests the client methods build. *)
Definition login_request (w : World) (email password : string) : request :=
  ReqLogin (base_url (self w) +:+ "/api/auth/login") email password.

Definition upload_request (w : World) (file_path content : string) : request :=
  ReqUpload (base_url (self w) +:+ "/api/files/upload") (Path.name file_path) content "agents".

(** The world after a request has been sent and a line printed. *)
Definition after_request (r : request) (m : message) (w : World) : World :=
  set_console (console w ++ [m]) (set_sent (sent w ++ [r]) w).

(** An upload answered with the status 503. *)
Definition busy_world : World :=
  world_of [ ("invoices/a.pdf", "%PDF-a") ]
           (fun _ r => match r with
                       | ReqLogin _ _ _ => Some (mkResponse 200 "{}" [])
                       | ReqUpload _ _ _ _ => Some (mkResponse 503 "Service Unavailable" [])
                       | ReqAsk _ _ => Some (mkResponse 429 "Too Many Requests" [])
                       end).

(** An upload answered with status 200 and a JSON array. *)
Definition array_world : World :=
  world_of [ ("invoices/a.pdf", "%PDF-a") ]
           (fun _ r => match r with
                       | ReqUpload _ _ _ _ => Some (mkResponse 200 "[1, 2]" [])
                       | _ => Some (mkResponse 200 "{}" [])
                       end).

(** The payload [extract_invoice] builds for the uploaded file [fd] (a JSON
    object), and the request that carries it. *)
Definition payload_for (fd : list (string * pyval)) (model prompt : string)
    (conversation_id : pyval) (w : World) : pyval :=
  match fst (build_payload (PyDict fd) model prompt conversation_id w) with
  | Ok payload => payload
  | Raised _ => PyNone
  end.

Definition ask_request (py_repr : pyval -> string)
    (fd vm : list (string * pyval)) (model : string) (conversation_id : pyval)
    (w : World) : request :=
  ReqAsk (base_url (self w) +:+ "/api/ask/agents")
         (payload_for fd model (build_prompt (vendor_list py_repr vm)) conversation_id w).

(** The world after a request has been answered with the events [evs]:
    two lines printed, the request sent, the identifiers stored. *)
Definition after_answer (model : string) (r : request) (evs : list pyval) (w : World) : World :=
  let w1 := set_console (console w ++ [MsgSending model]) w in
  let w2 := set_sent (sent w1 ++ [r]) w1 in
  let w3 := Spec.after_stream evs w2 in
  set_console (console w3 ++ [MsgExtractionComplete]) w3.

(** An extraction request answered with the status 429, one answered with
    a numeric [text], and one answered with no [text] at all. *)
Definition numeric_text_world : World :=
  world_of [] (backend (fun _ => true)
                 (fun _ => [ ids_event "conv-7" "msg-7";
                             data_line ("{" +:+ quoted "text" +:+ ": 42}");
                             data_line "[DONE]" ])).

Definition silent_world : World :=
  world_of [] (backend (fun _ => true)
                 (fun _ => [ ids_event "conv-8" "msg-8"; data_line "[DONE]" ])).

Definition fenced_world : World :=
  world_of [] (backend (fun _ => true)
                 (fun _ => [ ids_event "conv-9" "msg-9";
                             text_event fenced_answer;
                             data_line "[DONE]" ])).

Definition file_a : list (string * pyval) :=
  [ ("file_id", PyStr "id-a.pdf"); ("filepath", PyStr "/uploads/a.pdf");
    ("filename", PyStr "a.pdf"); ("type", PyStr "application/pdf") ].

Definition vendors_v1 : list (string * pyval) := [ ("ACME Corp", PyStr "V1") ].

(** A vendor file that holds a JSON array. *)
Definition array_vendors_world : World :=
  world_of [ ("invoices/a.pdf", "%PDF-a"); ("vendors.json", "[1, 2]") ]
           (backend (fun _ => true) good_stream).

(** A command line without a password. *)
Definition no_password : Args :=
  mkArgs "invoices/a.pdf" (Some "user@example.com") None "http://localhost:3080"
         default_model None None.

(** ** The summary of a batch run *)

(** A summary entry for the file called [name]: a success entry or an
    error entry. *)
Definition entry_for (name : string) (r : pyval) : Prop :=
  (exists invoice_data, r = result_success name invoice_data)
  \/ (exists error, r = result_error name error).

(** [added] holds, in the order of [pdfs], at most one entry for each of
    them, under the name of the file. *)
Inductive records : list string -> list pyval -> Prop :=
| records_nil : records [] []
| records_skip (pdf : string) (pdfs : list string) (added : list pyval) :
    records pdfs added -> records (pdf :: pdfs) added
| records_entry (pdf : string) (pdfs : list string) (r : pyval) (added : list pyval) :
    entry_for (Path.name pdf) r -> records pdfs added -> records (pdf :: pdfs) (r :: added).

(** The world of a batch run that stopped at the login. *)
Definition after_failed_login (librechat_url email password : string) (resp : response)
    (w : World) : World :=
  let w0 := batch_start librechat_url w in
  let w1 := after_request (login_request w0 email password)
                          (MsgLoginFailed (status_code resp) (text resp)) w0 in
  set_console (console w1 ++ [MsgBatchLoginFailed]) w1.

(** The world of a batch run that found no PDF. *)
Definition after_empty_folder (librechat_url email password : string) (n : nat)
    (w : World) : World :=
  let w0 := batch_start librechat_url w in
  let w1 := after_request (login_request w0 email password) MsgLoginOk w0 in
  set_console (console w1 ++ [MsgLoadedVendors n; MsgFoundPdfs 0; MsgNoPdfs]) w1.

(** A vendor file and no invoice. *)
Definition empty_folder : World :=
  world_of [ ("vendors.json", vendors_json); ("notes/readme.txt", "none") ]
           (backend (fun _ => true) good_stream).

(** The world in which the loop handles the file number [i] of [n]: one
    line printed. *)
Definition processing (i n : nat) (pdf_path : string) (w : World) : World :=
  snd (print (MsgProcessing i n (Path.name pdf_path)) w).

(** Where the batch driver writes its summary. *)
Definition summary_path_of (folder_path : string) (output_folder : option string) : string :=
  Path.joinpath (match given output_folder with Some o => o | None => folder_path end)
                "batch_summary.json".

(** The three ways in which a batch run ends without an exception: at the
    failed login, at the empty folder, or with the summary written. *)
Inductive batch_end (json_dumps : pyval -> string) (folder_path : string)
    (output_folder : option string) (w w' : World) : Prop :=
| end_login_failed :
    last (console w') = Some MsgBatchLoginFailed -> fs w' = fs w ->
    batch_end json_dumps folder_path output_folder w w'
| end_no_pdfs :
    glob_pdf folder_path w = (Ok [], w) ->
    last (console w') = Some MsgNoPdfs -> fs w' = fs w ->
    batch_end json_dumps folder_path output_folder w w'
| end_summary (pdfs : list string) (results : list pyval) :
    glob_pdf folder_path w = (Ok pdfs, w) ->
    records pdfs results ->
    fs w' !! summary_path_of folder_path output_folder
      = Some (File (json_dumps (PyList results))) ->
    batch_end json_dumps folder_path output_folder w w'.

(** * Properties *)

(** ** The monad *)

Lemma bind_ok {A B : Type} (m : M A) (k : A -> M B) (w w' : World) (a : A) :
  m w = (Ok a, w') -> bind m k w = k a w'.
Proof. intros H. unfold bind. rewrite H. reflexivity. Qed.

Lemma bind_raised {A B : Type} (m : M A) (k : A -> M B) (w w' : World) (e : exn) :
  m w = (Raised e, w') -> bind m k w = (Raised e, w').
Proof. intros H. unfold bind. rewrite H. reflexivity. Qed.

(** Two continuations that agree on what the first command returns. *)
Lemma bind_ext {A B : Type} (m : M A) (k1 k2 : A -> M B) (w : World) :
  (forall a w', m w = (Ok a, w') -> k1 a w' = k2 a w') ->
  bind m k1 w = bind m k2 w.
Proof.
  intros H. unfold bind. destruct (m w) as [[a|e] w']; [|reflexivity].
  apply H. reflexivity.
Qed.

(** ** Strings *)

Lemma append_cons (x : ascii) (a b : string) : String x a +:+ b = String x (a +:+ b).
Proof. reflexivity. Qed.

Lemma startswith_app (p s : string) : Str.startswith (p +:+ s) p = true.
Proof.
  induction p as [|a p IH]; simpl.
  - destruct s; reflexivity.
  - rewrite Ascii.eqb_refl. exact IH.
Qed.

Lemma has_char_app (c : ascii) (a b : string) :
  Str.has_char c (a +:+ b) = Str.has_char c a || Str.has_char c b.
Proof.
  induction a as [|x a IH]; simpl; [reflexivity|].
  rewrite IH. apply orb_assoc.
Qed.

Lemma split_single (c : ascii) (s : string) :
  Str.has_char c s = false -> Str.split c s = [s].
Proof.
  induction s as [|a s IH]; simpl; [reflexivity|].
  intros H. apply orb_false_iff in H as [Ha Hs].
  rewrite Ha, (IH Hs). reflexivity.
Qed.

Lemma split_app (c : ascii) (x r : string) :
  Str.has_char c x = false ->
  Str.split c (x +:+ String c r) = x :: Str.split c r.
Proof.
  induction x as [|a x IH]; simpl.
  - intros _. rewrite Ascii.eqb_refl. reflexivity.
  - intros H. apply orb_false_iff in H as [Ha Hx].
    rewrite Ha, (IH Hx). reflexivity.
Qed.

Lemma join_cons (sep x y : string) (r : list string) :
  Str.join sep (x :: y :: r) = x +:+ sep +:+ Str.join sep (y :: r).
Proof. reflexivity. Qed.

Lemma split_join (l : list string) :
  l <> [] -> Forall Spec.single_line l ->
  Str.split Str.nl (Str.join Str.newline l) = l.
Proof.
  induction l as [|x r IH]; [congruence|].
  intros _ Hall. inversion Hall as [|? ? Hx Hr]; subst.
  destruct r as [|y r].
  - simpl. apply split_single. exact Hx.
  - rewrite join_cons.
    change (Str.newline +:+ Str.join Str.newline (y :: r))
      with (String Str.nl (Str.join Str.newline (y :: r))).
    rewrite split_app by exact Hx.
    rewrite IH; [reflexivity|congruence|exact Hr].
Qed.

Lemma append_assoc (a b c : string) : (a +:+ b) +:+ c = a +:+ (b +:+ c).
Proof.
  induction a as [|x a IH]; [reflexivity|].
  rewrite !append_cons, IH. reflexivity.
Qed.

Lemma join_app (sep : string) (l1 l2 : list string) :
  l1 <> [] -> l2 <> [] ->
  Str.join sep (l1 ++ l2) = Str.join sep l1 +:+ sep +:+ Str.join sep l2.
Proof.
  induction l1 as [|x r IH]; [congruence|].
  intros _ H2. destruct r as [|y r].
  - destruct l2 as [|z l2]; [congruence|]. reflexivity.
  - change ((x :: y :: r) ++ l2) with (x :: y :: (r ++ l2)).
    rewrite !join_cons.
    change (y :: r ++ l2) with ((y :: r) ++ l2).
    rewrite IH by congruence.
    rewrite !append_assoc. reflexivity.
Qed.

(** Joining a block that is itself a join gives the join of all lines. *)
Lemma join_nested (sep : string) (a lines b : list string) :
  a <> [] -> lines <> [] -> b <> [] ->
  Str.join sep (a ++ [Str.join sep lines] ++ b) = Str.join sep (a ++ lines ++ b).
Proof.
  intros Ha Hl Hb.
  rewrite (join_app sep a ([Str.join sep lines] ++ b)) by (congruence || discriminate).
  rewrite (join_app sep [Str.join sep lines] b) by (congruence || discriminate).
  rewrite (join_app sep a (lines ++ b)).
  - rewrite (join_app sep lines b) by congruence. reflexivity.
  - exact Ha.
  - destruct lines; [congruence|discriminate].
Qed.

(** ** C9: the vendor list of the prompt *)

Section VendorList.
Variable py_repr : pyval -> string.

Lemma vendor_line_stated (kv : string * string) :
  vendor_line py_repr (fst kv, PyStr (snd kv)) = stated_vendor_line kv.
Proof. reflexivity. Qed.

Lemma vendor_lines_stated (m : list (string * string)) :
  map (vendor_line py_repr) (vendor_items m) = map stated_vendor_line m.
Proof.
  unfold vendor_items. rewrite map_map. apply map_ext. intros kv. apply vendor_line_stated.
Qed.

Lemma stated_vendor_line_single (kv : string * string) :
  Spec.single_line (fst kv) -> Spec.single_line (snd kv) ->
  Spec.single_line (stated_vendor_line kv).
Proof.
  unfold Spec.single_line, stated_vendor_line. intros H1 H2.
  rewrite !has_char_app, H1, H2. reflexivity.
Qed.

Lemma stated_vendor_lines_single (m : list (string * string)) :
  Forall (fun kv => Spec.single_line (fst kv) /\ Spec.single_line (snd kv)) m ->
  Forall Spec.single_line (map stated_vendor_line m).
Proof.
  induction 1 as [|kv m [H1 H2] _ IH]; simpl; constructor.
  - apply stated_vendor_line_single; assumption.
  - exact IH.
Qed.

Lemma vendor_block_not_empty (kv : string * string) (m : list (string * string)) :
  String.eqb (Str.join Str.newline (map stated_vendor_line (kv :: m))) EmptyString = false.
Proof. destruct m; reflexivity. Qed.

End VendorList.

Lemma prompt_head_single : Forall Spec.single_line prompt_head.
Proof. unfold prompt_head. repeat constructor. Qed.

Lemma prompt_tail_single : Forall Spec.single_line prompt_tail.
Proof. unfold prompt_tail. repeat constructor. Qed.

(** C9 (amended): for every vendor mapping from name strings to number
    strings in which no name and no number contains a newline character,
    the vendor list block has exactly one line per mapping, each of the
    form [- {name}: {number}], in the mapping's order; when the mapping is
    not empty these are the lines of the prompt between its fixed head and
    its fixed tail. *)
Theorem vendor_list_one_line_per_mapping (py_repr : pyval -> string)
    (m : list (string * string)) :
  Forall (fun kv => Spec.single_line (fst kv) /\ Spec.single_line (snd kv)) m ->
  one_line_per_mapping py_repr m
  /\ (m <> [] ->
      Str.split Str.nl (build_prompt (vendor_list py_repr (vendor_items m)))
      = prompt_head ++ map stated_vendor_line m ++ prompt_tail).
Proof.
  intros Hm. pose proof (stated_vendor_lines_single m Hm) as Hlines.
  unfold one_line_per_mapping, vendor_list. rewrite vendor_lines_stated.
  split.
  - destruct m as [|kv m]; [reflexivity|].
    unfold Spec.block_lines. rewrite vendor_block_not_empty.
    apply split_join; [discriminate|exact Hlines].
  - intros Hne. unfold build_prompt.
    assert (Hl : map stated_vendor_line m <> []) by (destruct m; [congruence|discriminate]).
    rewrite join_nested; [|discriminate|exact Hl|discriminate].
    apply split_join.
    + discriminate.
    + apply Forall_app. split; [apply prompt_head_single|].
      apply Forall_app. split; [exact Hlines|apply prompt_tail_single].
Qed.

Lemma vendor_list_one_line_per_mapping_witness :
  one_line_per_mapping MiniJson.repr sample_vendors
  /\ (sample_vendors <> [] ->
      Str.split Str.nl (build_prompt (vendor_list MiniJson.repr (vendor_items sample_vendors)))
      = prompt_head ++ map stated_vendor_line sample_vendors ++ prompt_tail).
Proof.
  apply (vendor_list_one_line_per_mapping MiniJson.repr sample_vendors).
  unfold sample_vendors. repeat constructor.
Defined.

(** C9 as stated fails for a name that contains a newline: the block then
    has two lines for one mapping. *)
Lemma vendor_list_two_line_name :
  Spec.block_lines (vendor_list MiniJson.repr (vendor_items two_line_vendor))
  = [ "- Acme"; "Ltd: V1" ]
  /\ ~ one_line_per_mapping MiniJson.repr two_line_vendor.
Proof.
  split; [reflexivity|].
  unfold one_line_per_mapping. vm_compute. discriminate.
Qed.

(** ** C4: markdown fences *)

Lemma startswith_append (s t p : string) :
  Str.startswith s p = true -> Str.startswith (s +:+ t) p = true.
Proof.
  revert s. induction p as [|a p IH]; intros s H.
  - destruct (s +:+ t); reflexivity.
  - destruct s as [|b s]; [discriminate|].
    rewrite append_cons. simpl in *.
    apply andb_true_iff in H as [Hab Hs]. rewrite Hab. simpl. apply IH, Hs.
Qed.

Lemma startswith_join (sep first p : string) (rest : list string) :
  Str.startswith first p = true ->
  Str.startswith (Str.join sep (first :: rest)) p = true.
Proof.
  intros H. destruct rest as [|y rest]; [exact H|].
  rewrite join_cons. apply startswith_append, H.
Qed.

Lemma slice_1_m1_middle {A : Type} (first last : A) (body : list A) :
  Str.slice_1_m1 (first :: body ++ [last]) = body.
Proof. unfold Str.slice_1_m1. simpl. apply removelast_last. Qed.

(** C4 (amended): the final answer text is first stripped of leading and
    trailing whitespace.  If the stripped text does not begin with the
    fence marker it is what the JSON parser receives; if it begins with
    the marker, its first and last lines are dropped and the lines between
    them, joined by newlines, are what the parser receives (nothing at all
    when the stripped text is a single line). *)
Theorem fence_stripping (json_loads : string -> outcome pyval) (full_response : string) :
  (Str.startswith (Str.strip full_response) fence = false ->
   answer_json_text full_response = Str.strip full_response)
  /\ (forall first last body,
        Str.strip full_response = Str.join Str.newline (first :: body ++ [last]) ->
        Str.startswith first fence = true ->
        Forall Spec.single_line (first :: body ++ [last]) ->
        answer_json_text full_response = Str.join Str.newline body)
  /\ (Str.startswith (Str.strip full_response) fence = true ->
      Spec.single_line (Str.strip full_response) ->
      answer_json_text full_response = EmptyString)
  /\ (forall w, parse_answer json_loads (PyStr full_response) w
                = decode_answer json_loads (answer_json_text full_response)
                                (PyStr full_response) w).
Proof.
  unfold answer_json_text, strip_fence. repeat split.
  - intros H. rewrite H. reflexivity.
  - intros first last body Heq Hfirst Hall. rewrite Heq.
    rewrite startswith_join by exact Hfirst.
    rewrite split_join by (discriminate || exact Hall).
    rewrite slice_1_m1_middle. reflexivity.
  - intros H Hs. rewrite H. rewrite (split_single _ _ Hs). reflexivity.
Qed.

Lemma fence_stripping_witness :
  answer_json_text fenced_answer = sample_object
  /\ answer_json_text plain_answer = sample_object.
Proof.
  split.
  - apply (proj1 (proj2 (fence_stripping MiniJson.loads fenced_answer))
             (fence +:+ "json") fence [sample_object]).
    + reflexivity.
    + reflexivity.
    + repeat constructor.
  - apply (proj1 (fence_stripping MiniJson.loads plain_answer)). reflexivity.
Defined.

(** C4 as stated fails on an answer whose fence follows an empty line (the
    text does not begin with the marker, yet the fence is removed) and on
    an unfenced answer that ends in a newline (the parser does not receive
    it unchanged). *)
Lemma fence_after_whitespace :
  Str.startswith fenced_answer fence = false
  /\ Spec.stated_json_text fenced_answer = fenced_answer
  /\ answer_json_text fenced_answer = sample_object
  /\ answer_json_text fenced_answer <> Spec.stated_json_text fenced_answer
  /\ MiniJson.loads (answer_json_text fenced_answer) = Ok sample_invoice
  /\ (exists msg, MiniJson.loads (Spec.stated_json_text fenced_answer)
                  = Raised (JSONDecodeError msg))
  /\ Spec.stated_json_text plain_answer = plain_answer
  /\ answer_json_text plain_answer <> plain_answer.
Proof.
  repeat split; try reflexivity; try (vm_compute; discriminate).
  eexists. vm_compute. reflexivity.
Qed.

(** ** The streaming loop *)

Lemma after_stream_nil (w : World) : Spec.after_stream [] w = w.
Proof. destruct w as [? ? ? ? ? [? ? ?]]. reflexivity. Qed.

Section Stream.
Variable json_loads : string -> outcome pyval.

Lemma decode_utf8_Some (line line_text : string) :
  Str.decode_utf8 line = Some line_text -> line_text = line /\ Str.utf8_valid line = true.
Proof.
  unfold Str.decode_utf8. destruct (Str.utf8_valid line); [|discriminate].
  intros [= <-]. split; reflexivity.
Qed.

Lemma startswith_nonempty (s : string) :
  Str.startswith s "data: " = true -> String.eqb s EmptyString = false.
Proof. destruct s; [discriminate|reflexivity]. Qed.

(** A line whose payload [json.loads] rejects leaves everything as it is. *)
Lemma process_line_malformed (line msg : string) (full_response : pyval) (w : World) :
  Str.utf8_valid line = true ->
  Str.startswith line "data: " = true ->
  json_loads (Str.slice_from 6 line) = Raised (JSONDecodeError msg) ->
  process_line json_loads line full_response w
  = (Ok (if String.eqb (Str.slice_from 6 line) "[DONE]"
         then Break full_response else Next full_response), w).
Proof.
  intros Hutf Hpre Hjson. unfold process_line, Str.decode_utf8.
  rewrite (startswith_nonempty _ Hpre), Hutf, Hpre.
  destruct (String.eqb (Str.slice_from 6 line) "[DONE]"); [reflexivity|].
  rewrite Hjson. reflexivity.
Qed.

Lemma consume_cons (line : string) (rest : list string) (full_response : pyval) (w : World) :
  consume json_loads (line :: rest) full_response w
  = match process_line json_loads line full_response w with
    | (Ok (Next fr), w') => consume json_loads rest fr w'
    | (Ok (Break fr), w') => (Ok fr, w')
    | (Raised e, w') => (Raised e, w')
    end.
Proof.
  simpl. unfold bind.
  destruct (process_line json_loads line full_response w) as [[[fr|fr]|e] w']; reflexivity.
Qed.

Lemma consume_skip (line : string) (before after : list string) :
  (forall fr w, process_line json_loads line fr w = (Ok (Next fr), w)) ->
  forall fr w,
    consume json_loads (before ++ line :: after) fr w
    = consume json_loads (before ++ after) fr w.
Proof.
  intros Hskip. induction before as [|x before IH]; intros fr w.
  - simpl app. rewrite consume_cons, Hskip. reflexivity.
  - change ((x :: before) ++ line :: after) with (x :: (before ++ line :: after)).
    change ((x :: before) ++ after) with (x :: (before ++ after)).
    rewrite !consume_cons.
    destruct (process_line json_loads x fr w) as [[[fr'|fr']|e] w']; try reflexivity.
    apply IH.
Qed.

End Stream.

(** C7: a [data: ]-prefixed line whose payload [json.loads] rejects with
    [JSONDecodeError] raises nothing and changes neither the retained text
    nor the stored conversation and message identifiers (nor anything else);
    the loop goes on with the next line, and it ends normally only if the
    payload is the end marker [[DONE]], which is recognised before the
    parser is called.  A stream with such a line gives the same result as
    the stream without it. *)
Theorem malformed_event_skipped (json_loads : string -> outcome pyval)
    (line line_text msg : string) :
  Str.decode_utf8 line = Some line_text ->
  Str.startswith line_text "data: " = true ->
  json_loads (Str.slice_from 6 line_text) = Raised (JSONDecodeError msg) ->
  (forall full_response w,
      process_line json_loads line full_response w
      = (Ok (if String.eqb (Str.slice_from 6 line_text) "[DONE]"
             then Break full_response else Next full_response), w))
  /\ (Str.slice_from 6 line_text <> "[DONE]" ->
      forall before after full_response w,
        consume json_loads (before ++ line :: after) full_response w
        = consume json_loads (before ++ after) full_response w).
Proof.
  intros Hdec Hpre Hjson.
  apply decode_utf8_Some in Hdec as [-> Hutf].
  split.
  - intros fr w. apply (process_line_malformed json_loads line msg); assumption.
  - intros Hne before after fr w. apply consume_skip. intros fr' w'.
    rewrite (process_line_malformed json_loads line msg) by assumption.
    destruct (String.eqb_spec (Str.slice_from 6 line) "[DONE]"); [contradiction|reflexivity].
Qed.

Lemma malformed_event_skipped_witness :
  (forall full_response w,
      process_line MiniJson.loads (data_line "{not json") full_response w
      = (Ok (Next full_response), w))
  /\ (forall full_response w,
        consume MiniJson.loads ([text_event "par"] ++ data_line "{not json" :: [text_event "partial answer"])
                full_response w
        = consume MiniJson.loads ([text_event "par"] ++ [text_event "partial answer"])
                  full_response w).
Proof.
  pose proof (malformed_event_skipped MiniJson.loads (data_line "{not json")
                (data_line "{not json") "Expecting value" eq_refl eq_refl eq_refl) as [H1 H2].
  split.
  - exact H1.
  - intros fr w. apply H2. discriminate.
Defined.

(** ** C2: the retained text *)

Section Reconstruction.
Variable json_loads : string -> outcome pyval.

(** An event that is a JSON object never raises. *)
Lemma on_event_object (d : list (string * pyval)) (full_response : pyval) (w : World) :
  on_event (PyDict d) full_response w
  = (Ok (default full_response (Py.lookup d "text")), Spec.ids_after d w).
Proof.
  unfold on_event, Spec.ids_after, bind, lift, ret, Py.contains, Py.getitem,
    set_conversation_id, set_parent_message_id.
  destruct w as [f dn sv sn co [b c p]].
  destruct (Py.lookup d "text"), (Py.lookup d "conversationId"), (Py.lookup d "messageId");
    reflexivity.
Qed.

Lemma after_stream_cons (d : list (string * pyval)) (evs : list pyval) (w : World) :
  Spec.after_stream evs (Spec.ids_after d w) = Spec.after_stream (PyDict d :: evs) w.
Proof.
  unfold Spec.after_stream, Spec.ids_after. destruct w as [f dn sv sn co [b c p]]. simpl.
  destruct (Spec.last_field "conversationId" evs), (Spec.last_field "messageId" evs);
    reflexivity.
Qed.

Lemma last_text_cons (d : list (string * pyval)) (evs : list pyval) (full_response : pyval) :
  default (default full_response (Py.lookup d "text")) (Spec.last_field "text" evs)
  = default full_response (Spec.last_field "text" (PyDict d :: evs)).
Proof. simpl. destruct (Spec.last_field "text" evs); reflexivity. Qed.

Lemma well_formed_cons (line : string) (rest : list string) :
  Spec.well_formed json_loads (line :: rest)
  = Str.utf8_valid line &&
    (if Str.startswith line "data: " then
       if String.eqb (Str.slice_from 6 line) "[DONE]" then true
       else match json_loads (Str.slice_from 6 line) with
            | Ok data => Spec.is_object data && Spec.well_formed json_loads rest
            | Raised (JSONDecodeError _) => Spec.well_formed json_loads rest
            | Raised _ => false
            end
     else Spec.well_formed json_loads rest).
Proof. reflexivity. Qed.

Lemma events_cons (line : string) (rest : list string) :
  Spec.events json_loads (line :: rest)
  = if Str.startswith line "data: " then
      if String.eqb (Str.slice_from 6 line) "[DONE]" then []
      else match json_loads (Str.slice_from 6 line) with
           | Ok data => data :: Spec.events json_loads rest
           | Raised _ => Spec.events json_loads rest
           end
    else Spec.events json_loads rest.
Proof. reflexivity. Qed.

Lemma consume_well_formed (lines : list string) :
  Spec.well_formed json_loads lines = true ->
  forall full_response w,
    consume json_loads lines full_response w
    = (Ok (default full_response (Spec.last_field "text" (Spec.events json_loads lines))),
       Spec.after_stream (Spec.events json_loads lines) w).
Proof.
  induction lines as [|line rest IH]; intros Hwf fr w.
  - unfold consume, ret. simpl Spec.events. rewrite after_stream_nil. reflexivity.
  - rewrite consume_cons, events_cons. rewrite well_formed_cons in Hwf.
    apply andb_true_iff in Hwf as [Hutf Hwf].
    unfold process_line, Str.decode_utf8.
    destruct (String.eqb_spec line EmptyString) as [->|Hne].
    + unfold ret. apply IH. exact Hwf.
    + rewrite Hutf.
      destruct (Str.startswith line "data: ").
      * remember (Str.slice_from 6 line) as payload.
        destruct (String.eqb payload "[DONE]").
        { unfold ret. rewrite after_stream_nil. reflexivity. }
        destruct (json_loads payload) as [data|e].
        { apply andb_true_iff in Hwf as [Hobj Hwf].
          destruct data as [| | | | | |d]; try discriminate.
          unfold bind. rewrite on_event_object. unfold ret.
          rewrite (IH Hwf). rewrite last_text_cons, after_stream_cons. reflexivity. }
        destruct e; try discriminate. unfold ret. apply IH. exact Hwf.
      * unfold ret. apply IH. exact Hwf.
Qed.

End Reconstruction.

(** C2 (amended): for every finite sequence of streamed lines in which,
    up to the first [data: [DONE]] line, every line is valid UTF-8 and
    every [data: ] payload that [json.loads] accepts is a JSON object, the
    loop ends normally and the retained text is the [text] field of the
    last [data: ]-prefixed JSON event before any [data: [DONE]] line that
    has one (each new value replaces the previous one); it is the empty
    string when there is none.  Events without the field, payloads that
    [json.loads] rejects and every line after [data: [DONE]] have no
    effect on it. *)
Theorem stream_reconstruction (json_loads : string -> outcome pyval)
    (lines : list string) (w : World) :
  Spec.well_formed json_loads lines = true ->
  consume json_loads lines (PyStr EmptyString) w
  = (Ok (default (PyStr EmptyString)
                 (Spec.last_field "text" (Spec.events json_loads lines))),
     Spec.after_stream (Spec.events json_loads lines) w).
Proof. intros Hwf. apply consume_well_formed. exact Hwf. Qed.

Lemma stream_reconstruction_witness :
  consume MiniJson.loads sample_stream (PyStr EmptyString) empty_world
  = (Ok (PyStr "partial answer"), empty_world).
Proof.
  rewrite (stream_reconstruction MiniJson.loads sample_stream empty_world); reflexivity.
Defined.

(** C2 as stated fails on a stream with an event that is JSON but not an
    object, and on a stream with a line that is not UTF-8: the last event
    with a [text] field before the end carries ["x"], but the loop raises
    and retains nothing. *)
Lemma stream_with_non_object_event :
  Spec.last_field "text" (Spec.events MiniJson.loads number_then_text) = Some (PyStr "x")
  /\ fst (consume MiniJson.loads number_then_text (PyStr EmptyString) empty_world)
     = Raised TypeError
  /\ Spec.last_field "text" (Spec.events MiniJson.loads bad_utf8_then_text) = Some (PyStr "x")
  /\ fst (consume MiniJson.loads bad_utf8_then_text (PyStr EmptyString) empty_world)
     = Raised UnicodeDecodeError.
Proof. repeat split; reflexivity. Qed.

(** ** C8: uploading a file that does not exist *)

(** C8: [upload_file] on a path that does not exist prints the
    file-not-found diagnostic and returns [None]; it raises nothing and
    sends no request (the request history, the files and the client are
    unchanged). *)
Theorem upload_missing_file (json_loads : string -> outcome pyval)
    (file_path : string) (w : World) :
  fs w !! file_path = None ->
  upload_file json_loads file_path w
  = (Ok PyNone, set_console (console w ++ [MsgFileNotFound file_path]) w).
Proof.
  intros Hnone. unfold upload_file, bind, path_exists. rewrite Hnone. reflexivity.
Qed.

Lemma upload_missing_file_witness :
  upload_file MiniJson.loads "invoices/z.pdf" three_invoices
  = (Ok PyNone,
     set_console (console three_invoices ++ [MsgFileNotFound "invoices/z.pdf"]) three_invoices)
  /\ sent (snd (upload_file MiniJson.loads "invoices/z.pdf" three_invoices)) = [].
Proof.
  assert (H : fs three_invoices !! "invoices/z.pdf" = None) by reflexivity.
  split.
  - apply (upload_missing_file MiniJson.loads "invoices/z.pdf" three_invoices H).
  - rewrite (upload_missing_file MiniJson.loads "invoices/z.pdf" three_invoices H).
    reflexivity.
Defined.

(** ** C1 and C5: what the batch summary records *)

(** An answer that [json.loads] rejects: the error and the raw text are
    printed and [None] is returned. *)
Lemma parse_answer_rejected (json_loads : string -> outcome pyval)
    (full_response msg : string) (w : World) :
  json_loads (answer_json_text full_response) = Raised (JSONDecodeError msg) ->
  parse_answer json_loads (PyStr full_response) w
  = (Ok PyNone,
     set_console (console w ++ [MsgParseFailed msg; MsgRawResponse (PyStr full_response)]) w).
Proof.
  intros H. unfold parse_answer, decode_answer, bind, lift, Py.strip.
  unfold answer_json_text in H. rewrite H.
  unfold print, ret, set_console. simpl. rewrite <- app_assoc. reflexivity.
Qed.

(** C1 (the code departs from it): in a batch run over [a.pdf], [b.pdf] and
    [c.pdf] where the upload of [b.pdf] is answered with status 500, the
    run ends normally and the outputs of [a.pdf] and [c.pdf] exist and are
    well-formed, but the summary holds two entries, none for [b.pdf], and
    the counts printed are 2 in total, 2 successful, 0 failed. *)
Theorem refused_upload_leaves_no_summary_entry :
  fst (batch three_invoices) = Ok tt
  /\ summary_of (snd (batch three_invoices))
     = Ok (PyList [ result_success "c.pdf" sample_invoice;
                    result_success "a.pdf" sample_invoice ])
  /\ skipn 16 (console (snd (batch three_invoices)))
     = [ MsgProcessing 3 3 "b.pdf";
         MsgUploadFailed 500 "Internal Server Error";
         MsgBatchUploadFailed;
         MsgBatchComplete 2 2 0;
         MsgSummarySaved "invoices/batch_summary.json" ]
  /\ output_of "invoices/a.json" (snd (batch three_invoices)) = Some (Ok sample_invoice)
  /\ output_of "invoices/c.json" (snd (batch three_invoices)) = Some (Ok sample_invoice)
  /\ output_of "invoices/b.json" (snd (batch three_invoices)) = None.
Proof. repeat split; vm_compute; reflexivity. Qed.

(** C5 (the code departs from it): in a batch run over [a.pdf] and [b.pdf]
    where the answer for [b.pdf] is not JSON, [extract_invoice] prints the
    error and the raw text and returns [None], the driver prints that the
    extraction failed and writes no output for [b.pdf]; but the file is
    not counted as failed: the summary holds the entry of [a.pdf] alone
    and the counts printed are 1 in total, 1 successful, 0 failed. *)
Theorem unparsable_answer_is_not_counted :
  fst (batch two_invoices) = Ok tt
  /\ (exists error,
        skipn 10 (console (snd (batch two_invoices)))
        = [ MsgProcessing 2 2 "b.pdf";
            MsgFileUploaded (PyStr "b.pdf");
            MsgSending default_model;
            MsgExtractionComplete;
            MsgParseFailed error;
            MsgRawResponse (PyStr "Sorry, I cannot read this invoice.");
            MsgBatchExtractionFailed;
            MsgBatchComplete 1 1 0;
            MsgSummarySaved "invoices/batch_summary.json" ])
  /\ output_of "invoices/b.json" (snd (batch two_invoices)) = None
  /\ output_of "invoices/a.json" (snd (batch two_invoices)) = Some (Ok sample_invoice)
  /\ summary_of (snd (batch two_invoices))
     = Ok (PyList [ result_success "a.pdf" sample_invoice ]).
Proof.
  split; [vm_compute; reflexivity|].
  split; [eexists; vm_compute; reflexivity|].
  repeat split; vm_compute; reflexivity.
Qed.

(** ** C3: a vendor file that does not exist *)

Lemma login_fs (email password : string) (w : World) :
  fs (snd (login email password w)) = fs w.
Proof.
  unfold login, bind, get_world, post.
  destruct (server w (sent w) _) as [resp|]; [|reflexivity].
  destruct (status_code resp =? 200)%Z; reflexivity.
Qed.

Lemma login_sent (email password : string) (w : World) :
  sent (snd (login email password w))
  = sent w ++ [ReqLogin (base_url (self w) +:+ "/api/auth/login") email password].
Proof.
  unfold login, bind, get_world, post.
  destruct (server w (sent w) _) as [resp|]; [|reflexivity].
  destruct (status_code resp =? 200)%Z; reflexivity.
Qed.

Lemma load_vendor_mappings_missing (json_loads : string -> outcome pyval)
    (p : string) (w : World) :
  fs w !! p = None ->
  load_vendor_mappings json_loads (Some p) w = (Ok default_vendor_mappings, w).
Proof.
  intros H. unfold load_vendor_mappings, given.
  destruct (String.eqb p EmptyString); [reflexivity|].
  unfold bind, path_exists. rewrite H. reflexivity.
Qed.

Lemma load_json_file_missing (json_loads : string -> outcome pyval)
    (p : string) (w : World) :
  fs w !! p = None ->
  load_json_file json_loads p w = (Raised (FileNotFoundError p), w).
Proof. intros H. unfold load_json_file, bind, read_file. rewrite H. reflexivity. Qed.

(** C3 (amended): a missing vendor-mappings file is no failure in the
    single-file command line, where [load_vendor_mappings] returns the
    built-in default mappings and the run goes on exactly as if no vendor
    file had been named; in the batch driver, after a successful login,
    opening the missing file raises [FileNotFoundError], which nothing
    catches: the run ends there, before any PDF is looked at, with no
    request sent but the login and no file written. *)
Theorem missing_vendor_file
    (json_loads : string -> outcome pyval) (json_dumps : pyval -> string)
    (py_repr : pyval -> string) (exn_str : exn -> string)
    (p : string) (w : World) :
  fs w !! p = None ->
  load_vendor_mappings json_loads (Some p) w = (Ok default_vendor_mappings, w)
  /\ (forall args,
        arg_vendors args = Some p ->
        main json_loads json_dumps py_repr args w
        = main json_loads json_dumps py_repr (without_vendors args) w)
  /\ (forall folder_path librechat_url email password output_folder,
        fst (login email password (batch_start librechat_url w)) = Ok true ->
        let run := process_invoice_folder json_loads json_dumps py_repr exn_str
                     folder_path p librechat_url email password output_folder w in
        fst run = Raised (FileNotFoundError p)
        /\ fs (snd run) = fs w
        /\ sent (snd run)
           = sent w ++ [ReqLogin (base_url (new_client librechat_url) +:+ "/api/auth/login")
                                 email password]).
Proof.
  intros Hnone. split; [apply load_vendor_mappings_missing, Hnone|]. split.
  - intros args Hv. unfold main, without_vendors. simpl. rewrite Hv.
    destruct (given (arg_email args)) as [email|]; [|reflexivity].
    destruct (given (arg_password args)) as [password|]; [|reflexivity].
    apply bind_ext. intros [] w0 [= <-].
    apply bind_ext. intros logged_in w1 Hlogin.
    destruct logged_in; [|reflexivity]. change (negb true) with false. cbv iota.
    assert (Hfs : fs w1 !! p = None).
    { pose proof (login_fs email password (set_self (new_client (arg_url args)) w)) as H.
      rewrite Hlogin in H. simpl in H. rewrite H. exact Hnone. }
    rewrite (bind_ok (load_vendor_mappings json_loads (Some p)) _ w1 w1
               default_vendor_mappings (load_vendor_mappings_missing json_loads p w1 Hfs)).
    rewrite (bind_ok (load_vendor_mappings json_loads None) _ w1 w1
               default_vendor_mappings eq_refl).
    reflexivity.
  - intros folder_path librechat_url email password output_folder Hlogin run.
    subst run. unfold process_invoice_folder.
    pose proof (login_fs email password (batch_start librechat_url w)) as Hfs.
    pose proof (login_sent email password (batch_start librechat_url w)) as Hsent.
    destruct (login email password (batch_start librechat_url w)) as [r w1] eqn:Hrun.
    simpl in Hlogin, Hfs, Hsent. subst r.
    assert (Hresult :
      process_invoice_folder json_loads json_dumps py_repr exn_str folder_path p
        librechat_url email password output_folder w
      = (Raised (FileNotFoundError p), w1)).
    { unfold process_invoice_folder.
      erewrite bind_ok by reflexivity.
      erewrite bind_ok by reflexivity.
      erewrite bind_ok by exact Hrun.
      change (negb true) with false. cbv iota.
      apply bind_raised. apply load_json_file_missing. rewrite Hfs. exact Hnone. }
    unfold process_invoice_folder in Hresult. rewrite Hresult.
    split; [reflexivity|]. split; [exact Hfs|exact Hsent].
Qed.

Lemma missing_vendor_file_witness :
  load_vendor_mappings MiniJson.loads (Some "vendors.json") no_vendor_file
  = (Ok default_vendor_mappings, no_vendor_file)
  /\ cli (cli_args "invoices/a.pdf" "secret" (Some "vendors.json")) no_vendor_file
     = cli (cli_args "invoices/a.pdf" "secret" None) no_vendor_file
  /\ fst (batch no_vendor_file) = Raised (FileNotFoundError "vendors.json")
  /\ fs (snd (batch no_vendor_file)) = fs no_vendor_file.
Proof.
  assert (Hnone : fs no_vendor_file !! "vendors.json" = None) by reflexivity.
  destruct (missing_vendor_file MiniJson.loads MiniJson.dumps MiniJson.repr MiniJson.exn_str
              "vendors.json" no_vendor_file Hnone) as (Hload & Hmain & Hbatch).
  split; [exact Hload|]. split.
  - apply (Hmain (cli_args "invoices/a.pdf" "secret" (Some "vendors.json"))). reflexivity.
  - assert (Hlogin : fst (login "user@example.com" "secret"
                            (batch_start "http://localhost:3080/" no_vendor_file)) = Ok true)
      by (vm_compute; reflexivity).
    destruct (Hbatch "invoices" "http://localhost:3080/" "user@example.com" "secret" None Hlogin)
      as (Hraised & Hfs & _).
    split; [exact Hraised|exact Hfs].
Defined.

(** C3 as stated fails in both drivers: with a vendor file that does not
    exist, the single-file command line ends with exit status 0 and writes
    its output (no failure is signalled), and the batch driver lets
    [FileNotFoundError] escape. *)
Lemma missing_vendor_file_is_no_sentinel :
  fs no_vendor_file !! "vendors.json" = None
  /\ exit_status (fst (cli (cli_args "invoices/a.pdf" "secret" (Some "vendors.json"))
                           no_vendor_file)) = 0%Z
  /\ output_of "invoices/a.json"
       (snd (cli (cli_args "invoices/a.pdf" "secret" (Some "vendors.json")) no_vendor_file))
     = Some (Ok sample_invoice)
  /\ fst (batch no_vendor_file) = Raised (FileNotFoundError "vendors.json").
Proof. repeat split; vm_compute; reflexivity. Qed.

(** ** C6: the exit status of the single-file command line *)

Lemma write_file_ok (p c : string) (w : World) :
  p ∉ denied w -> fs w !! p <> Some Dir ->
  write_file p c w = (Ok tt, set_fs (<[p := File c]> (fs w)) w).
Proof.
  intros Hallowed Hnodir. unfold write_file.
  rewrite bool_decide_eq_false_2 by exact Hallowed.
  destruct (fs w !! p) as [[content|]|]; [reflexivity|congruence|reflexivity].
Qed.

Ltac run_with H Hm := erewrite bind_ok in Hm by exact H.
Ltac run_step Hm := erewrite bind_ok in Hm by reflexivity.

(** C6: with an email and a password given, the single-file command line
    exits with status 1 when the login fails, when the upload fails
    ([upload_file] returns a falsy value) and when the extraction fails
    ([extract_invoice] returns a falsy value); it exits with status 0 when
    all three succeed, the extracted data is a JSON object and the output
    file can be written, and the file then holds the data. *)
Theorem exit_status_of_main
    (json_loads : string -> outcome pyval) (json_dumps : pyval -> string)
    (py_repr : pyval -> string) (args : Args) (email password : string) (w : World) :
  given (arg_email args) = Some email ->
  given (arg_password args) = Some password ->
  let start := set_self (new_client (arg_url args)) w in
  (fst (login email password start) = Ok false ->
   run_main json_loads json_dumps py_repr args w = 1%Z)
  /\ (forall w1 vendor_mappings w2 n,
        login email password start = (Ok true, w1) ->
        load_vendor_mappings json_loads (arg_vendors args) w1 = (Ok vendor_mappings, w2) ->
        Py.len vendor_mappings = Ok n ->
        let ready := set_console (console w2 ++ [MsgLoadedVendors n]) w2 in
        (forall file_data,
            fst (upload_file json_loads (arg_pdf args) ready) = Ok file_data ->
            Py.truthy file_data = false ->
            run_main json_loads json_dumps py_repr args w = 1%Z)
        /\ (forall file_data w3,
              upload_file json_loads (arg_pdf args) ready = (Ok file_data, w3) ->
              Py.truthy file_data = true ->
              (forall invoice_data,
                  fst (extract_invoice json_loads py_repr file_data vendor_mappings
                         (arg_model args) PyNone w3) = Ok invoice_data ->
                  Py.truthy invoice_data = false ->
                  run_main json_loads json_dumps py_repr args w = 1%Z)
              /\ (forall d w4 output_path,
                    extract_invoice json_loads py_repr file_data vendor_mappings
                      (arg_model args) PyNone w3 = (Ok (PyDict d), w4) ->
                    d <> [] ->
                    output_path_of args = Some output_path ->
                    output_path ∉ denied w4 ->
                    fs w4 !! output_path <> Some Dir ->
                    run_main json_loads json_dumps py_repr args w = 0%Z
                    /\ fs (snd (main json_loads json_dumps py_repr args w)) !! output_path
                       = Some (File (json_dumps (PyDict d)))))).
Proof.
  intros Hemail Hpassword start.
  assert (Hmain : main json_loads json_dumps py_repr args w
                  = main json_loads json_dumps py_repr args w) by reflexivity.
  unfold main at 2 in Hmain. rewrite Hemail, Hpassword in Hmain.
  run_step Hmain. fold start in Hmain.
  split.
  - intros Hlogin. destruct (login email password start) as [r w1] eqn:Hrun.
    simpl in Hlogin. subst r. run_with Hrun Hmain.
    unfold run_main. rewrite Hmain. reflexivity.
  - intros w1 vendor_mappings w2 n Hlogin Hload Hlen ready.
    run_with Hlogin Hmain. change (negb true) with false in Hmain. cbv iota in Hmain.
    run_with Hload Hmain.
    erewrite bind_ok in Hmain by (unfold lift; rewrite Hlen; reflexivity).
    run_step Hmain. fold ready in Hmain.
    split.
    + intros file_data Hupload Hfalsy.
      destruct (upload_file json_loads (arg_pdf args) ready) as [r w3] eqn:Hrun.
      simpl in Hupload. subst r. run_with Hrun Hmain. rewrite Hfalsy in Hmain.
      unfold run_main. rewrite Hmain. reflexivity.
    + intros file_data w3 Hupload Htruthy.
      run_with Hupload Hmain. rewrite Htruthy in Hmain.
      change (negb true) with false in Hmain. cbv iota in Hmain.
      split.
      * intros invoice_data Hextract Hfalsy.
        destruct (extract_invoice json_loads py_repr file_data vendor_mappings
                    (arg_model args) PyNone w3) as [r w4] eqn:Hrun.
        simpl in Hextract. subst r. run_with Hrun Hmain. rewrite Hfalsy in Hmain.
        unfold run_main. rewrite Hmain. reflexivity.
      * intros d w4 output_path Hextract Hd Hpath Hallowed Hnodir.
        run_with Hextract Hmain.
        assert (Htrue : Py.truthy (PyDict d) = true) by (destruct d; [congruence|reflexivity]).
        rewrite Htrue in Hmain. change (negb true) with false in Hmain. cbv iota in Hmain.
        do 9 run_step Hmain.
        unfold output_path_of in Hpath.
        assert (Hout : forall w',
                   match given (arg_output args) with
                   | Some o => ret o
                   | None => with_suffix_json (arg_pdf args)
                   end w' = (Ok output_path, w')).
        { intros w'. destruct (given (arg_output args)) as [o|].
          - injection Hpath as ->. reflexivity.
          - unfold with_suffix_json. rewrite Hpath. reflexivity. }
        erewrite bind_ok in Hmain by apply Hout.
        erewrite bind_ok in Hmain by (apply write_file_ok; assumption).
        run_step Hmain.
        unfold run_main. rewrite Hmain. split; [reflexivity|].
        simpl. apply lookup_insert_eq.
Qed.


Lemma pair_of_fst {A B : Type} (x : A * B) (a : A) : fst x = a -> x = (a, snd x).
Proof. destruct x. simpl. intros ->. reflexivity. Qed.

Ltac computed := apply pair_of_fst; vm_compute; reflexivity.

Lemma exit_status_of_main_witness :
  run_main MiniJson.loads MiniJson.dumps MiniJson.repr
    (cli_args "invoices/a.pdf" "wrong" None) no_vendor_file = 1%Z
  /\ run_main MiniJson.loads MiniJson.dumps MiniJson.repr
       (cli_args "invoices/b.pdf" "secret" None) three_invoices = 1%Z
  /\ run_main MiniJson.loads MiniJson.dumps MiniJson.repr
       (cli_args "invoices/b.pdf" "secret" None) two_invoices = 1%Z
  /\ run_main MiniJson.loads MiniJson.dumps MiniJson.repr
       (cli_args "invoices/a.pdf" "secret" None) no_vendor_file = 0%Z.
Proof.
  split; [|split; [|split]].
  - apply (proj1 (exit_status_of_main MiniJson.loads MiniJson.dumps MiniJson.repr
                    (cli_args "invoices/a.pdf" "wrong" None) "user@example.com" "wrong"
                    no_vendor_file eq_refl eq_refl)).
    vm_compute. reflexivity.
  - pose proof (proj2 (exit_status_of_main MiniJson.loads MiniJson.dumps MiniJson.repr
                    (cli_args "invoices/b.pdf" "secret" None) "user@example.com" "secret"
                    three_invoices eq_refl eq_refl)) as H.
    eapply (proj1 (H _ default_vendor_mappings _ 5 ltac:(computed) eq_refl eq_refl)).
    + vm_compute. reflexivity.
    + reflexivity.
  - pose proof (proj2 (exit_status_of_main MiniJson.loads MiniJson.dumps MiniJson.repr
                    (cli_args "invoices/b.pdf" "secret" None) "user@example.com" "secret"
                    two_invoices eq_refl eq_refl)) as H.
    pose proof (proj2 (H _ default_vendor_mappings _ 5 ltac:(computed) eq_refl eq_refl)) as H'.
    eapply (proj1 (H' (PyDict [ ("file_id", PyStr "id-b.pdf");
                                ("filepath", PyStr "/uploads/b.pdf");
                                ("filename", PyStr "b.pdf");
                                ("type", PyStr "application/pdf") ])
                      _ ltac:(computed) eq_refl)).
    + vm_compute. reflexivity.
    + reflexivity.
  - pose proof (proj2 (exit_status_of_main MiniJson.loads MiniJson.dumps MiniJson.repr
                    (cli_args "invoices/a.pdf" "secret" None) "user@example.com" "secret"
                    no_vendor_file eq_refl eq_refl)) as H.
    pose proof (proj2 (H _ default_vendor_mappings _ 5 ltac:(computed) eq_refl eq_refl)) as H'.
    pose proof (proj2 (H' (PyDict [ ("file_id", PyStr "id-a.pdf");
                                    ("filepath", PyStr "/uploads/a.pdf");
                                    ("filename", PyStr "a.pdf");
                                    ("type", PyStr "application/pdf") ])
                          _ ltac:(computed) eq_refl)) as H''.
    eapply (proj1 (H'' [ ("vendor", PyStr "ACME Corp") ] _ "invoices/a.json"
                       ltac:(computed) ltac:(discriminate) eq_refl _ _)).
    Unshelve.
    + vm_compute. set_solver.
    + vm_compute. discriminate.
Defined.

(** ** C10: the identifiers of successive requests *)

Section Chain.
Variable json_loads : string -> outcome pyval.
Variable py_repr : pyval -> string.

Lemma last_field_app (k : string) (a b : list pyval) :
  Spec.last_field k (a ++ b)
  = match Spec.last_field k b with
    | Some v => Some v
    | None => Spec.last_field k a
    end.
Proof.
  induction a as [|ev a IH]; simpl.
  - destruct (Spec.last_field k b); reflexivity.
  - rewrite IH. destruct (Spec.last_field k b); reflexivity.
Qed.

Lemma exchanges_app (srv : list request -> request -> option response)
    (history l1 l2 : list request) :
  Spec.exchanges json_loads srv history (l1 ++ l2)
  = Spec.exchanges json_loads srv history l1
    ++ Spec.exchanges json_loads srv (history ++ l1) l2.
Proof.
  revert history. induction l1 as [|r l1 IH]; intros history; simpl.
  - rewrite app_nil_r. reflexivity.
  - rewrite IH, <- !app_assoc. reflexivity.
Qed.

Lemma all_events_app (xs ys : list (pyval * list pyval)) :
  Spec.all_events (xs ++ ys) = Spec.all_events xs ++ Spec.all_events ys.
Proof. unfold Spec.all_events. rewrite map_app, concat_app. reflexivity. Qed.

Lemma chain_app (stored : pyval) (xs ys : list (pyval * list pyval)) :
  Spec.chain stored xs ->
  Spec.chain (default stored (Spec.last_field "messageId" (Spec.all_events xs))) ys ->
  Spec.chain stored (xs ++ ys).
Proof.
  revert stored. induction xs as [|[payload evs] xs IH]; intros stored Hxs Hys.
  - exact Hys.
  - destruct Hxs as (Hc & Hp & Hrest). simpl. repeat split; try assumption.
    apply IH; [exact Hrest|].
    change (Spec.all_events ((payload, evs) :: xs)) with (evs ++ Spec.all_events xs) in Hys.
    rewrite last_field_app in Hys.
    destruct (Spec.last_field "messageId" (Spec.all_events xs)); exact Hys.
Qed.

Lemma sent_parent_stored (earlier : list pyval) :
  Py.or_else (default PyNone (Spec.last_field "messageId" earlier)) (PyStr nil_uuid)
  = Spec.sent_parent earlier.
Proof.
  unfold Spec.sent_parent. destruct (Spec.last_field "messageId" earlier); reflexivity.
Qed.

Lemma chain_lookup (xs : list (pyval * list pyval)) :
  forall stored earlier k payload evs,
    Spec.chain stored xs ->
    stored = default PyNone (Spec.last_field "messageId" earlier) ->
    xs !! k = Some (payload, evs) ->
    Spec.payload_field payload "conversationId" = Some (PyStr "new")
    /\ Spec.payload_field payload "parentMessageId"
       = Some (Spec.sent_parent (earlier ++ Spec.all_events (take k xs))).
Proof.
  induction xs as [|[payload0 evs0] xs IH]; intros stored earlier k payload evs Hchain Hst Hk.
  - discriminate.
  - destruct Hchain as (Hc & Hp & Hrest). destruct k as [|k].
    + injection Hk as <- <-. split; [exact Hc|].
      rewrite Hp, Hst. simpl take. unfold Spec.all_events. simpl.
      rewrite app_nil_r, sent_parent_stored. reflexivity.
    + simpl in Hk.
      destruct (IH _ (earlier ++ evs0) k payload evs Hrest) as [H1 H2].
      * rewrite Hst, last_field_app.
        destruct (Spec.last_field "messageId" evs0); reflexivity.
      * exact Hk.
      * split; [exact H1|]. rewrite H2. simpl take.
        change (Spec.all_events ((payload0, evs0) :: take k xs))
          with (evs0 ++ Spec.all_events (take k xs)).
        rewrite app_assoc. reflexivity.
Qed.

End Chain.

Section Effects.
Variable json_loads : string -> outcome pyval.
Variable py_repr : pyval -> string.

Lemma quiet_refl (w w' : World) :
  server w' = server w -> self w' = self w -> sent w' = sent w -> quiet json_loads w w'.
Proof.
  intros Hs Hc Hn. repeat split; try assumption.
  exists []. rewrite app_nil_r. split; [exact Hn|reflexivity].
Qed.

Lemma quiet_one (w w' : World) (r : request) :
  server w' = server w -> self w' = self w -> sent w' = sent w ++ [r] ->
  (forall url payload, r <> ReqAsk url payload) ->
  quiet json_loads w w'.
Proof.
  intros Hs Hc Hn Hr. repeat split; try assumption.
  exists [r]. split; [exact Hn|]. intros history. simpl.
  destruct r; try reflexivity. exfalso. eapply Hr. reflexivity.
Qed.

Lemma login_quiet (email password : string) (w : World) :
  quiet json_loads w (snd (login email password w)).
Proof.
  apply quiet_one with (r := ReqLogin (base_url (self w) +:+ "/api/auth/login") email password);
    try discriminate;
    unfold login, bind, get_world, post;
    (destruct (server w (sent w) _) as [resp|]; [|reflexivity]);
    destruct (status_code resp =? 200)%Z; reflexivity.
Qed.

Lemma upload_file_quiet (file_path : string) (w : World) :
  quiet json_loads w (snd (upload_file json_loads file_path w)).
Proof.
  unfold upload_file.
  destruct (fs w !! file_path) as [[content|]|] eqn:Hfs.
  - erewrite bind_ok by (unfold path_exists; rewrite Hfs; reflexivity).
    change (negb true) with false. cbv iota.
    erewrite bind_ok by (unfold read_file; rewrite Hfs; reflexivity).
    erewrite bind_ok by reflexivity.
    set (r := ReqUpload (base_url (self w) +:+ "/api/files/upload")
                        (Path.name file_path) content "agents").
    apply quiet_one with (r := r); try (subst r; discriminate);
      unfold bind, post;
      (destruct (server w (sent w) r) as [resp|]; [|reflexivity]);
      (destruct (status_code resp =? 200)%Z; [|reflexivity]);
      unfold lift;
      (destruct (json_loads (text resp)) as [file_data|e]; [|reflexivity]);
      destruct (Py.get file_data "filename"); reflexivity.
  - erewrite bind_ok by (unfold path_exists; rewrite Hfs; reflexivity).
    change (negb true) with false. cbv iota.
    erewrite bind_raised by (unfold read_file; rewrite Hfs; reflexivity).
    apply quiet_refl; reflexivity.
  - erewrite bind_ok by (unfold path_exists; rewrite Hfs; reflexivity).
    change (negb false) with true. cbv iota.
    apply quiet_refl; reflexivity.
Qed.

Lemma parse_answer_frame (full_response : pyval) (w : World) :
  server (snd (parse_answer json_loads full_response w)) = server w
  /\ sent (snd (parse_answer json_loads full_response w)) = sent w
  /\ self (snd (parse_answer json_loads full_response w)) = self w.
Proof.
  unfold parse_answer, decode_answer, bind, lift.
  destruct (Py.strip full_response) as [json_text|e]; [|repeat split].
  destruct (json_loads (strip_fence json_text)) as [v|[]]; repeat split.
Qed.

Lemma build_payload_result (file_data : pyval) (model prompt : string) (w : World) :
  (exists e, build_payload file_data model prompt PyNone w = (Raised e, w))
  \/ (exists payload,
        build_payload file_data model prompt PyNone w = (Ok payload, w)
        /\ Spec.payload_field payload "conversationId" = Some (PyStr "new")
        /\ Spec.payload_field payload "parentMessageId"
           = Some (Py.or_else (parent_message_id (self w)) (PyStr nil_uuid))).
Proof.
  destruct file_data; try (left; eexists; reflexivity).
  right. eexists. split; [reflexivity|]. split; reflexivity.
Qed.

Lemma extract_invoice_effect (file_data vendor_mappings : pyval) (model : string) (w : World) :
  well_formed_backend json_loads (server w) ->
  let w' := snd (extract_invoice json_loads py_repr file_data vendor_mappings model PyNone w) in
  quiet json_loads w w' \/ asked json_loads w w'.
Proof.
  intros Hwf w'. subst w'. unfold extract_invoice.
  destruct (Py.items vendor_mappings) as [items|e].
  2: { left. rewrite bind_raised with (e := e) (w' := w) by reflexivity.
       apply quiet_refl; reflexivity. }
  rewrite bind_ok with (a := items) (w' := w) by reflexivity.
  destruct (build_payload_result file_data model (build_prompt (vendor_list py_repr items)) w)
    as [[e He]|(payload & Hp & Hconv & Hparent)].
  { left. rewrite (bind_raised _ _ _ _ _ He). apply quiet_refl; reflexivity. }
  rewrite (bind_ok _ _ _ _ _ Hp).
  erewrite bind_ok by reflexivity. erewrite bind_ok by reflexivity.
  set (w1 := set_console (console w ++ [MsgSending model]) w).
  set (r := ReqAsk (base_url (self w1) +:+ "/api/ask/agents") payload).
  right. unfold asked.
  assert (Hgoal : forall w2,
             server w2 = server w -> sent w2 = sent w ++ [r] ->
             parent_message_id (self w2)
             = default (parent_message_id (self w))
                 (Spec.last_field "messageId"
                    (Spec.response_events json_loads (server w (sent w) r))) ->
             server w2 = server w
             /\ exists url payload0,
                 sent w2 = sent w ++ [ReqAsk url payload0]
                 /\ Spec.payload_field payload0 "conversationId" = Some (PyStr "new")
                 /\ Spec.payload_field payload0 "parentMessageId"
                    = Some (Py.or_else (parent_message_id (self w)) (PyStr nil_uuid))
                 /\ parent_message_id (self w2)
                    = default (parent_message_id (self w))
                        (Spec.last_field "messageId"
                           (Spec.response_events json_loads
                              (server w (sent w) (ReqAsk url payload0))))).
  { intros w2 H1 H2 H3. split; [exact H1|].
    exists (base_url (self w1) +:+ "/api/ask/agents"), payload. repeat split; assumption. }
  unfold Spec.response_events in Hgoal.
  destruct (server w (sent w) r) as [resp|] eqn:Hresp.
  2: { erewrite bind_raised
         by (unfold post; change (server w1 (sent w1) r) with (server w (sent w) r);
             rewrite Hresp; reflexivity).
       apply Hgoal; reflexivity. }
  erewrite bind_ok
    by (unfold post; change (server w1 (sent w1) r) with (server w (sent w) r);
        rewrite Hresp; reflexivity).
  destruct (status_code resp =? 200)%Z eqn:Hstatus.
  2: { change (negb false) with true. cbv iota. apply Hgoal; reflexivity. }
  change (negb true) with false. cbv iota.
  assert (Hlines : Spec.well_formed json_loads (iter_lines resp) = true).
  { apply (Hwf (sent w) _ payload resp Hresp). apply Z.eqb_eq. exact Hstatus. }
  erewrite bind_ok by (apply consume_well_formed; exact Hlines).
  erewrite bind_ok by reflexivity.
  match goal with
  | |- context [parse_answer json_loads ?fr ?w0] =>
      destruct (parse_answer_frame fr w0) as (Hs & Hn & Hc)
  end.
  apply Hgoal.
  - rewrite Hs. reflexivity.
  - rewrite Hn. reflexivity.
  - rewrite Hc. reflexivity.
Qed.

End Effects.

Section Sequences.
Variable json_loads : string -> outcome pyval.
Variable py_repr : pyval -> string.

Lemma advance_refl (w : World) : advance json_loads w w.
Proof.
  split; [reflexivity|]. exists []. rewrite app_nil_r. repeat split; reflexivity.
Qed.

Lemma quiet_advance (w w' : World) : quiet json_loads w w' -> advance json_loads w w'.
Proof.
  intros (Hs & Hc & new & Hn & Hx). split; [exact Hs|].
  exists new. rewrite Hx, Hc. repeat split; try reflexivity. exact Hn.
Qed.

Lemma asked_advance (w w' : World) : asked json_loads w w' -> advance json_loads w w'.
Proof.
  intros (Hs & url & payload & Hn & Hconv & Hparent & Hstored). split; [exact Hs|].
  exists [ReqAsk url payload]. split; [exact Hn|].
  simpl. unfold Spec.all_events. simpl. rewrite app_nil_r.
  repeat split; assumption.
Qed.

Lemma advance_trans (w1 w2 w3 : World) :
  advance json_loads w1 w2 -> advance json_loads w2 w3 -> advance json_loads w1 w3.
Proof.
  intros (Hs1 & new1 & Hn1 & Hc1 & Hp1) (Hs2 & new2 & Hn2 & Hc2 & Hp2).
  rewrite Hs1, Hn1, Hp1 in *.
  split; [exact Hs2|]. exists (new1 ++ new2).
  rewrite app_assoc, exchanges_app, all_events_app, last_field_app.
  split; [exact Hn2|]. split.
  - apply chain_app; assumption.
  - rewrite Hp2.
    destruct (Spec.last_field "messageId"
                (Spec.all_events
                   (Spec.exchanges json_loads (server w1) (sent w1 ++ new1) new2)));
      reflexivity.
Qed.

Lemma perform_world (a : action) (w : World) :
  snd (perform json_loads py_repr a w)
  = match a with
    | CallLogin email password => snd (login email password w)
    | CallUpload file_path => snd (upload_file json_loads file_path w)
    | CallExtract file_data vendor_mappings model =>
        snd (extract_invoice json_loads py_repr file_data vendor_mappings model PyNone w)
    end.
Proof.
  unfold perform, try_except, bind. destruct a.
  - destruct (login email password w) as [[?|?] ?]; reflexivity.
  - destruct (upload_file json_loads file_path w) as [[?|?] ?]; reflexivity.
  - destruct (extract_invoice json_loads py_repr file_data vendor_mappings model PyNone w)
      as [[?|?] ?]; reflexivity.
Qed.

Lemma perform_advance (a : action) (w : World) :
  well_formed_backend json_loads (server w) ->
  advance json_loads w (snd (perform json_loads py_repr a w)).
Proof.
  intros Hwf. rewrite perform_world. destruct a.
  - apply quiet_advance, login_quiet.
  - apply quiet_advance, upload_file_quiet.
  - destruct (extract_invoice_effect json_loads py_repr file_data vendor_mappings model w Hwf).
    + apply quiet_advance. assumption.
    + apply asked_advance. assumption.
Qed.

Lemma perform_all_advance (actions : list action) (w : World) :
  well_formed_backend json_loads (server w) ->
  advance json_loads w (snd (perform_all json_loads py_repr actions w)).
Proof.
  revert w. induction actions as [|a actions IH]; intros w Hwf.
  - apply advance_refl.
  - simpl. unfold bind.
    pose proof (perform_advance a w Hwf) as Ha.
    destruct (perform json_loads py_repr a w) as [[[]|e] w1] eqn:Hrun.
    + simpl in Ha. eapply advance_trans; [exact Ha|]. apply IH.
      destruct Ha as [-> _]. exact Hwf.
    + exfalso. unfold perform, try_except in Hrun.
      destruct a; simpl in Hrun;
        match type of Hrun with
        | match ?m with _ => _ end = _ => destruct m as [[?|?] ?]; discriminate
        end.
Qed.

End Sequences.

(** C10 (amended): for every sequence of calls of [login], [upload_file]
    and [extract_invoice] (without a [conversation_id] argument) on a new
    client, whatever the calls raise being caught by the caller, against a
    backend whose streamed answers are well-formed event streams: every
    [/api/ask] payload has [conversationId] equal to ["new"], and its
    [parentMessageId] is the [messageId] value of the last event with such
    a field among the events consumed in all earlier calls when that value
    is truthy, and the nil UUID when that value is falsy (empty string,
    null) or when there is no such event, as on the first call. *)
Theorem parent_message_id_of_requests
    (json_loads : string -> outcome pyval) (py_repr : pyval -> string)
    (actions : list action) (w : World) (k : nat) (payload : pyval) (evs : list pyval) :
  sent w = [] ->
  parent_message_id (self w) = PyNone ->
  well_formed_backend json_loads (server w) ->
  Spec.exchanges json_loads (server w) []
    (sent (snd (perform_all json_loads py_repr actions w))) !! k = Some (payload, evs) ->
  Spec.payload_field payload "conversationId" = Some (PyStr "new")
  /\ Spec.payload_field payload "parentMessageId"
     = Some (Spec.sent_parent
               (Spec.all_events
                  (take k (Spec.exchanges json_loads (server w) []
                             (sent (snd (perform_all json_loads py_repr actions w))))))).
Proof.
  intros Hsent Hnew Hwf Hk.
  destruct (perform_all_advance json_loads py_repr actions w Hwf)
    as (_ & new & Hn & Hchain & _).
  rewrite Hsent in Hn, Hchain. simpl in Hn. rewrite Hn in *.
  apply (chain_lookup _ (parent_message_id (self w)) [] k payload evs Hchain).
  - rewrite Hnew. reflexivity.
  - exact Hk.
Qed.

Lemma empty_id_backend_well_formed :
  well_formed_backend MiniJson.loads (server empty_id_world).
Proof.
  intros history url payload resp Hresp _. simpl in Hresp.
  injection Hresp as <-. simpl iter_lines.
  destruct (String.eqb (attachment_name payload) "a.pdf"); vm_compute; reflexivity.
Qed.

Lemma parent_message_id_of_requests_witness :
  match exchanges_of three_calls empty_id_world !! 2 with
  | Some (payload, _) =>
      Spec.payload_field payload "conversationId" = Some (PyStr "new")
      /\ Spec.payload_field payload "parentMessageId" = Some (PyStr "msg-2")
  | None => False
  end.
Proof.
  unfold exchanges_of.
  destruct (Spec.exchanges MiniJson.loads (server empty_id_world) []
              (sent (snd (perform_all MiniJson.loads MiniJson.repr three_calls
                            empty_id_world))) !! 2) as [[payload evs]|] eqn:Hk.
  - destruct (parent_message_id_of_requests MiniJson.loads MiniJson.repr three_calls
                empty_id_world 2 payload evs eq_refl eq_refl
                empty_id_backend_well_formed Hk) as [H1 H2].
    split; [exact H1|]. rewrite H2. vm_compute. reflexivity.
  - vm_compute in Hk. discriminate.
Defined.

(** C10 as stated fails when the last event with a [messageId] carries an
    empty one: the events of the first call end with [messageId] equal to
    the empty string (after ["msg-1"]), and the second request carries the
    nil UUID, neither the empty string nor ["msg-1"].  It also fails when
    the stream of the first call is not well formed: the loop raises on
    the event [5], the [messageId] streamed after it is never stored, and
    the second request carries the nil UUID. *)
Lemma empty_message_id_gives_nil_uuid :
  match exchanges_of three_calls empty_id_world with
  | (_, first_events) :: (second_payload, _) :: _ =>
      Spec.stated_parent first_events = PyStr EmptyString
      /\ Spec.payload_field second_payload "parentMessageId" = Some (PyStr nil_uuid)
      /\ Spec.payload_field second_payload "parentMessageId"
         <> Some (Spec.stated_parent first_events)
  | _ => False
  end
  /\ match exchanges_of three_calls number_first_world with
     | (_, first_events) :: (second_payload, _) :: _ =>
         Spec.stated_parent first_events = PyStr "msg-9"
         /\ Spec.payload_field second_payload "parentMessageId" = Some (PyStr nil_uuid)
     | _ => False
     end.
Proof. split; vm_compute; repeat split; discriminate. Qed.

(** In the batch run over three invoices (processed in the order [c.pdf],
    [a.pdf]; the upload of [b.pdf] is refused) the request for [a.pdf]
    starts a new conversation and carries the [messageId] streamed for
    [c.pdf]. *)
Example batch_carries_previous_message_id :
  map (fun x => (attachment_name (fst x),
                 Spec.payload_field (fst x) "conversationId",
                 Spec.payload_field (fst x) "parentMessageId"))
      (Spec.exchanges MiniJson.loads (server three_invoices) []
         (sent (snd (batch three_invoices))))
  = [ ("c.pdf", Some (PyStr "new"), Some (PyStr nil_uuid));
      ("a.pdf", Some (PyStr "new"), Some (PyStr "msg-c.pdf")) ].
Proof. vm_compute. reflexivity. Qed.

(** * Further properties of the client and of the drivers *)

(** ** The address of the client *)

Lemma rev_app_append (s t : string) : String.rev_app s t = String.rev_app s EmptyString +:+ t.
Proof.
  revert t. induction s as [|a s IH]; intros t; simpl; [reflexivity|].
  rewrite (IH (String a t)), (IH (String a EmptyString)), append_assoc. reflexivity.
Qed.

Lemma rev_cons (a : ascii) (s : string) :
  String.rev (String a s) = String.rev s +:+ String a EmptyString.
Proof. unfold String.rev. simpl. apply rev_app_append. Qed.

Lemma append_nil_r (s : string) : s +:+ EmptyString = s.
Proof. induction s as [|a s IH]; [reflexivity|]. rewrite append_cons, IH. reflexivity. Qed.

Lemma rev_append (s t : string) : String.rev (s +:+ t) = String.rev t +:+ String.rev s.
Proof.
  induction s as [|a s IH].
  - change (EmptyString +:+ t) with t. change (String.rev EmptyString) with EmptyString.
    rewrite append_nil_r. reflexivity.
  - rewrite append_cons, !rev_cons, IH, append_assoc. reflexivity.
Qed.

Lemma rev_involutive (s : string) : String.rev (String.rev s) = s.
Proof.
  induction s as [|a s IH]; [reflexivity|].
  rewrite rev_cons, rev_append, IH. reflexivity.
Qed.

Lemma rstrip_char_rev_head (c : ascii) (s : string) :
  Str.startswith (Str.rstrip_char_rev c s) (String c EmptyString) = false.
Proof.
  induction s as [|a s IH]; [reflexivity|]. simpl.
  destruct (Ascii.eqb a c) eqn:Hac; [exact IH|].
  simpl. destruct (Ascii.eqb_spec c a) as [->|_]; [|reflexivity].
  rewrite Ascii.eqb_refl in Hac. discriminate.
Qed.

(** X1: The address kept by a new client never ends with a slash, however many
    the given URL ends with; a URL and the same URL followed by a slash
    give the same client. *)
Theorem base_url_has_no_trailing_slash (url : string) :
  Path.endswith (base_url (new_client url)) "/" = false
  /\ new_client (url +:+ "/") = new_client url.
Proof.
  split.
  - unfold Path.endswith, new_client, Str.rstrip_char. simpl base_url.
    rewrite rev_involutive. apply rstrip_char_rev_head.
  - unfold new_client, Str.rstrip_char. rewrite rev_append.
    change (String.rev "/" +:+ String.rev url)
      with (String Path.slash (String.rev url)).
    reflexivity.
Qed.

(** ** [login] and [upload_file] *)

(** X2: When the backend answers, [login] raises nothing, returns [True]
    exactly when the status is 200, sends the one request to
    [/api/auth/login] under the address of the client, and leaves the
    files and the client object as they are. *)
Theorem login_outcome (email password : string) (w : World) (resp : response) :
  server w (sent w) (login_request w email password) = Some resp ->
  fst (login email password w) = Ok (status_code resp =? 200)%Z
  /\ sent (snd (login email password w)) = sent w ++ [login_request w email password]
  /\ fs (snd (login email password w)) = fs w
  /\ self (snd (login email password w)) = self w.
Proof.
  intros Hresp. unfold login, bind, get_world, post. unfold login_request in Hresp.
  rewrite Hresp. destruct (status_code resp =? 200)%Z; repeat split.
Qed.

Lemma login_outcome_witness :
  fst (login "user@example.com" "wrong" three_invoices) = Ok false
  /\ fst (login "user@example.com" "secret" three_invoices) = Ok true.
Proof.
  split.
  - apply (login_outcome "user@example.com" "wrong" three_invoices
             (mkResponse 401 "Unauthorized" []) eq_refl).
  - apply (login_outcome "user@example.com" "secret" three_invoices
             (mkResponse 200 "{}" []) eq_refl).
Defined.

(** X3: An upload that the backend answers with a status other than 200 gives
    the [None] sentinel: nothing is raised, the body is never decoded, the
    one request is sent and the failure is printed. *)
Theorem upload_refused (json_loads : string -> outcome pyval)
    (file_path content : string) (w : World) (resp : response) :
  fs w !! file_path = Some (File content) ->
  server w (sent w) (upload_request w file_path content) = Some resp ->
  status_code resp <> 200%Z ->
  upload_file json_loads file_path w
  = (Ok PyNone,
     after_request (upload_request w file_path content)
       (MsgUploadFailed (status_code resp) (text resp)) w).
Proof.
  intros Hfile Hresp Hstatus. unfold upload_file.
  erewrite bind_ok by (unfold path_exists; rewrite Hfile; reflexivity).
  change (negb true) with false. cbv iota.
  erewrite bind_ok by (unfold read_file; rewrite Hfile; reflexivity).
  erewrite bind_ok by reflexivity.
  erewrite bind_ok
    by (unfold post; unfold upload_request in Hresp; rewrite Hresp; reflexivity).
  apply Z.eqb_neq in Hstatus. rewrite Hstatus. reflexivity.
Qed.

Lemma upload_refused_witness :
  upload_file MiniJson.loads "invoices/a.pdf" busy_world
  = (Ok PyNone,
     after_request (upload_request busy_world "invoices/a.pdf" "%PDF-a")
       (MsgUploadFailed 503 "Service Unavailable") busy_world).
Proof.
  apply (upload_refused MiniJson.loads "invoices/a.pdf" "%PDF-a" busy_world
           (mkResponse 503 "Service Unavailable" [])).
  - reflexivity.
  - reflexivity.
  - discriminate.
Defined.

(** X4: An upload answered with status 200 returns the decoded body when it is
    a JSON object, whatever its keys; a body that is JSON but not an
    object makes [upload_file] raise [AttributeError] (at
    [file_data.get]) after the request has been sent, and a body that
    [json.loads] rejects makes it raise that error. *)
Theorem upload_accepted (json_loads : string -> outcome pyval)
    (file_path content : string) (w : World) (resp : response) :
  fs w !! file_path = Some (File content) ->
  server w (sent w) (upload_request w file_path content) = Some resp ->
  status_code resp = 200%Z ->
  fst (upload_file json_loads file_path w)
  = match json_loads (text resp) with
    | Ok (PyDict d) => Ok (PyDict d)
    | Ok _ => Raised AttributeError
    | Raised e => Raised e
    end
  /\ sent (snd (upload_file json_loads file_path w))
     = sent w ++ [upload_request w file_path content].
Proof.
  intros Hfile Hresp Hstatus. unfold upload_file.
  erewrite bind_ok by (unfold path_exists; rewrite Hfile; reflexivity).
  change (negb true) with false. cbv iota.
  erewrite bind_ok by (unfold read_file; rewrite Hfile; reflexivity).
  erewrite bind_ok by reflexivity.
  erewrite bind_ok
    by (unfold post; unfold upload_request in Hresp; rewrite Hresp; reflexivity).
  rewrite Hstatus. change (200 =? 200)%Z with true. cbv iota.
  unfold bind, lift.
  destruct (json_loads (text resp)) as [v|e]; [|split; reflexivity].
  destruct v; split; reflexivity.
Qed.

Lemma upload_accepted_witness :
  fst (upload_file MiniJson.loads "invoices/a.pdf" array_world) = Raised AttributeError
  /\ fst (upload_file MiniJson.loads "invoices/a.pdf" three_invoices)
     = Ok (uploaded "a.pdf").
Proof.
  split.
  - apply (upload_accepted MiniJson.loads "invoices/a.pdf" "%PDF-a" array_world
             (mkResponse 200 "[1, 2]" []) eq_refl eq_refl eq_refl).
  - apply (upload_accepted MiniJson.loads "invoices/a.pdf" "%PDF-a" three_invoices
             (mkResponse 200 (upload_body "a.pdf") []) eq_refl eq_refl eq_refl).
Defined.

(** ** What the client methods never touch *)

Lemma same_files_refl (w : World) : same_files w w.
Proof. repeat split. Qed.

Lemma same_files_trans (w1 w2 w3 : World) :
  same_files w1 w2 -> same_files w2 w3 -> same_files w1 w3.
Proof.
  intros (H1 & H2 & H3 & H4) (K1 & K2 & K3 & K4).
  repeat split; congruence.
Qed.

Lemma same_files_print (m : message) (w : World) : same_files w (snd (print m w)).
Proof. repeat split. Qed.

Section Frames.
Variable json_loads : string -> outcome pyval.
Variable py_repr : pyval -> string.

Lemma upload_file_frame (file_path : string) (w : World) :
  same_files w (snd (upload_file json_loads file_path w))
  /\ same_client w (snd (upload_file json_loads file_path w)).
Proof.
  unfold upload_file.
  destruct (fs w !! file_path) as [[content|]|] eqn:Hfs.
  - erewrite bind_ok by (unfold path_exists; rewrite Hfs; reflexivity).
    change (negb true) with false. cbv iota.
    erewrite bind_ok by (unfold read_file; rewrite Hfs; reflexivity).
    erewrite bind_ok by reflexivity.
    unfold bind, post.
    destruct (server w (sent w) _) as [resp|]; [|repeat split].
    destruct (status_code resp =? 200)%Z; [|repeat split].
    unfold lift.
    destruct (json_loads (text resp)) as [file_data|e]; [|repeat split].
    destruct (Py.get file_data "filename"); repeat split.
  - erewrite bind_ok by (unfold path_exists; rewrite Hfs; reflexivity).
    change (negb true) with false. cbv iota.
    erewrite bind_raised by (unfold read_file; rewrite Hfs; reflexivity).
    repeat split.
  - erewrite bind_ok by (unfold path_exists; rewrite Hfs; reflexivity).
    repeat split.
Qed.

(** X5: Whatever its argument and whatever the backend does, [upload_file]
    changes no file and leaves the client object as it is. *)
Theorem upload_file_changes_no_file (file_path : string) (w : World) :
  same_files w (snd (upload_file json_loads file_path w))
  /\ same_client w (snd (upload_file json_loads file_path w)).
Proof. apply upload_file_frame. Qed.

Lemma on_event_frame (data full_response : pyval) (w : World) :
  only_ids_differ w (snd (on_event data full_response w)).
Proof.
  unfold on_event, bind, lift, set_conversation_id, set_parent_message_id, ret.
  destruct (Py.contains "text" data) as [[]|]; [| |repeat split].
  - destruct (Py.getitem data "text"); [|repeat split].
    destruct (Py.contains "conversationId" data) as [[]|]; [| |repeat split].
    + destruct (Py.getitem data "conversationId"); [|repeat split].
      destruct (Py.contains "messageId" data) as [[]|]; [| |repeat split].
      * destruct (Py.getitem data "messageId"); repeat split.
      * repeat split.
    + destruct (Py.contains "messageId" data) as [[]|]; [| |repeat split].
      * destruct (Py.getitem data "messageId"); repeat split.
      * repeat split.
  - destruct (Py.contains "conversationId" data) as [[]|]; [| |repeat split].
    + destruct (Py.getitem data "conversationId"); [|repeat split].
      destruct (Py.contains "messageId" data) as [[]|]; [| |repeat split].
      * destruct (Py.getitem data "messageId"); repeat split.
      * repeat split.
    + destruct (Py.contains "messageId" data) as [[]|]; [| |repeat split].
      * destruct (Py.getitem data "messageId"); repeat split.
      * repeat split.
Qed.

Lemma only_ids_differ_refl (w : World) : only_ids_differ w w.
Proof. repeat split. Qed.

Lemma only_ids_differ_trans (w1 w2 w3 : World) :
  only_ids_differ w1 w2 -> only_ids_differ w2 w3 -> only_ids_differ w1 w3.
Proof.
  intros ((H1 & H2 & H3 & H4) & H5 & H6) ((K1 & K2 & K3 & K4) & K5 & K6).
  repeat split; congruence.
Qed.

Lemma process_line_frame (line : string) (full_response : pyval) (w : World) :
  only_ids_differ w (snd (process_line json_loads line full_response w)).
Proof.
  unfold process_line.
  destruct (String.eqb line EmptyString); [apply only_ids_differ_refl|].
  destruct (Str.decode_utf8 line) as [line_text|]; [|apply only_ids_differ_refl].
  destruct (Str.startswith line_text "data: "); [|apply only_ids_differ_refl].
  destruct (String.eqb (Str.slice_from 6 line_text) "[DONE]"); [apply only_ids_differ_refl|].
  destruct (json_loads (Str.slice_from 6 line_text)) as [data|e].
  - unfold bind. pose proof (on_event_frame data full_response w) as H.
    destruct (on_event data full_response w) as [[fr|e] w']; exact H.
  - destruct e; apply only_ids_differ_refl.
Qed.

Lemma consume_frame (lines : list string) (full_response : pyval) (w : World) :
  only_ids_differ w (snd (consume json_loads lines full_response w)).
Proof.
  revert full_response w. induction lines as [|line rest IH]; intros fr w.
  - apply only_ids_differ_refl.
  - rewrite consume_cons.
    pose proof (process_line_frame line fr w) as H.
    destruct (process_line json_loads line fr w) as [[[fr'|fr']|e] w']; simpl in H.
    + eapply only_ids_differ_trans; [exact H|apply IH].
    + exact H.
    + exact H.
Qed.

(** X6: Whatever the lines are, and whether the loop ends normally or raises,
    consuming a stream changes nothing but the two identifiers kept on the
    client: no file, no request, no printed line, not the address. *)
Theorem consume_changes_only_ids (lines : list string) (full_response : pyval) (w : World) :
  only_ids_differ w (snd (consume json_loads lines full_response w)).
Proof. apply consume_frame. Qed.

End Frames.

(** ** More on the streaming loop *)

Section Lines.
Variable json_loads : string -> outcome pyval.

Lemma process_line_done (full_response : pyval) (w : World) :
  process_line json_loads "data: [DONE]" full_response w = (Ok (Break full_response), w).
Proof. reflexivity. Qed.

(** X7: Nothing that follows a [data: [DONE]] line is looked at: two streams
    that agree up to such a line give the same result, whatever follows
    it (lines that are not UTF-8 and events that are not objects
    included). *)
Theorem nothing_after_done_is_read (before after after' : list string)
    (full_response : pyval) (w : World) :
  consume json_loads (before ++ "data: [DONE]" :: after) full_response w
  = consume json_loads (before ++ "data: [DONE]" :: after') full_response w.
Proof.
  revert full_response w. induction before as [|line before IH]; intros fr w.
  - simpl app. rewrite !consume_cons, process_line_done. reflexivity.
  - change ((line :: before) ++ "data: [DONE]" :: after)
      with (line :: (before ++ "data: [DONE]" :: after)).
    change ((line :: before) ++ "data: [DONE]" :: after')
      with (line :: (before ++ "data: [DONE]" :: after')).
    rewrite !consume_cons.
    destruct (process_line json_loads line fr w) as [[[fr'|fr']|e] w']; try reflexivity.
    apply IH.
Qed.

(** X8: A line of UTF-8 text that does not begin with [data: ] (an empty line,
    a comment, an [event:] line, [data:] without the space) is skipped:
    the stream with it gives the same result as the stream without it. *)
Theorem other_lines_are_skipped (line : string) (before after : list string)
    (full_response : pyval) (w : World) :
  Str.utf8_valid line = true ->
  Str.startswith line "data: " = false ->
  consume json_loads (before ++ line :: after) full_response w
  = consume json_loads (before ++ after) full_response w.
Proof.
  intros Hutf Hpre. apply consume_skip. intros fr w'.
  unfold process_line, Str.decode_utf8.
  destruct (String.eqb line EmptyString); [reflexivity|].
  rewrite Hutf, Hpre. reflexivity.
Qed.

End Lines.

Lemma other_lines_are_skipped_witness :
  consume MiniJson.loads ([text_event "par"] ++ "data:{}" :: [text_event "partial answer"])
    (PyStr EmptyString) empty_world
  = consume MiniJson.loads ([text_event "par"] ++ [text_event "partial answer"])
      (PyStr EmptyString) empty_world.
Proof.
  apply (other_lines_are_skipped MiniJson.loads "data:{}" [text_event "par"]
           [text_event "partial answer"] (PyStr EmptyString) empty_world eq_refl eq_refl).
Defined.


(** ** [extract_invoice] *)

Section Extraction.
Variable json_loads : string -> outcome pyval.
Variable py_repr : pyval -> string.

Lemma build_payload_object (fd : list (string * pyval)) (model prompt : string)
    (conversation_id : pyval) (w : World) :
  build_payload (PyDict fd) model prompt conversation_id w
  = (Ok (payload_for fd model prompt conversation_id w), w).
Proof. reflexivity. Qed.

Lemma extract_invoice_sends (fd vm : list (string * pyval)) (model : string)
    (conversation_id : pyval) (w : World) :
  extract_invoice json_loads py_repr (PyDict fd) (PyDict vm) model conversation_id w
  = bind (post (ask_request py_repr fd vm model conversation_id w))
      (fun resp =>
         if negb (status_code resp =? 200)%Z
         then bind (print (MsgExtractionFailed (status_code resp) (text resp)))
                   (fun _ => ret PyNone)
         else bind (consume json_loads (iter_lines resp) (PyStr EmptyString))
                   (fun full_response =>
                      bind (print MsgExtractionComplete)
                           (fun _ => parse_answer json_loads full_response)))
      (set_console (console w ++ [MsgSending model]) w).
Proof.
  unfold extract_invoice.
  erewrite bind_ok by reflexivity.
  erewrite bind_ok by apply build_payload_object.
  erewrite bind_ok by reflexivity.
  erewrite bind_ok by reflexivity.
  reflexivity.
Qed.

(** X9: An extraction request that the backend answers with a status other
    than 200 gives the [None] sentinel: nothing is raised, the body is
    not read as a stream, the identifiers kept on the client stay as they
    were, and the failure is printed. *)
Theorem extraction_refused (fd vm : list (string * pyval)) (model : string)
    (conversation_id : pyval) (w : World) (resp : response) :
  server w (sent w) (ask_request py_repr fd vm model conversation_id w) = Some resp ->
  status_code resp <> 200%Z ->
  extract_invoice json_loads py_repr (PyDict fd) (PyDict vm) model conversation_id w
  = (Ok PyNone,
     set_console (console w ++ [MsgSending model;
                                MsgExtractionFailed (status_code resp) (text resp)])
       (set_sent (sent w ++ [ask_request py_repr fd vm model conversation_id w]) w)).
Proof.
  intros Hresp Hstatus. rewrite extract_invoice_sends.
  erewrite bind_ok by (unfold post; simpl; rewrite Hresp; reflexivity).
  apply Z.eqb_neq in Hstatus. rewrite Hstatus. simpl negb. cbv iota.
  unfold bind, print, ret, set_console, set_sent. simpl.
  rewrite <- app_assoc. reflexivity.
Qed.

(** An extraction request answered with status 200 and a well-formed
    stream: the result is that of parsing the retained text (the [text]
    of the last event that has one, the empty string when there is none)
    in the world where the request is sent, the identifiers of the stream
    are stored and two lines are printed. *)
Lemma extract_invoice_answered (fd vm : list (string * pyval)) (model : string)
    (conversation_id : pyval) (w : World) (resp : response) :
  server w (sent w) (ask_request py_repr fd vm model conversation_id w) = Some resp ->
  status_code resp = 200%Z ->
  Spec.well_formed json_loads (iter_lines resp) = true ->
  extract_invoice json_loads py_repr (PyDict fd) (PyDict vm) model conversation_id w
  = parse_answer json_loads
      (default (PyStr EmptyString)
               (Spec.last_field "text" (Spec.events json_loads (iter_lines resp))))
      (after_answer model (ask_request py_repr fd vm model conversation_id w)
                    (Spec.events json_loads (iter_lines resp)) w).
Proof.
  intros Hresp Hstatus Hwf. rewrite extract_invoice_sends.
  erewrite bind_ok by (unfold post; simpl; rewrite Hresp; reflexivity).
  rewrite Hstatus. change (negb (200 =? 200)%Z) with false. cbv iota.
  erewrite bind_ok by (apply consume_well_formed; exact Hwf).
  erewrite bind_ok by reflexivity.
  reflexivity.
Qed.

End Extraction.

Lemma bind_same_files {A B : Type} (m : M A) (k : A -> M B) (w : World) :
  same_files w (snd (m w)) ->
  (forall a w', same_files w' (snd (k a w'))) ->
  same_files w (snd (bind m k w)).
Proof.
  intros Hm Hk. unfold bind. destruct (m w) as [[a|e] w1]; simpl in *.
  - eapply same_files_trans; [exact Hm|apply Hk].
  - exact Hm.
Qed.

Lemma lift_same_files {A : Type} (o : outcome A) (w : World) : same_files w (snd (lift o w)).
Proof. apply same_files_refl. Qed.

Lemma post_same_files (r : request) (w : World) : same_files w (snd (post r w)).
Proof. unfold post. destruct (server w (sent w) r); repeat split. Qed.

Section ExtractionFrame.
Variable json_loads : string -> outcome pyval.
Variable py_repr : pyval -> string.

Lemma decode_answer_same_files (json_text : string) (full_response : pyval) (w : World) :
  same_files w (snd (decode_answer json_loads json_text full_response w)).
Proof.
  unfold decode_answer. destruct (json_loads json_text) as [v|[]]; repeat split.
Qed.

Lemma parse_answer_same_files (full_response : pyval) (w : World) :
  same_files w (snd (parse_answer json_loads full_response w)).
Proof.
  unfold parse_answer. apply bind_same_files; [apply lift_same_files|].
  intros. apply decode_answer_same_files.
Qed.

Lemma build_payload_same_files (file_data : pyval) (model prompt : string)
    (conversation_id : pyval) (w : World) :
  same_files w (snd (build_payload file_data model prompt conversation_id w)).
Proof. destruct file_data; repeat split. Qed.

Lemma extract_invoice_frame (file_data vendor_mappings : pyval)
    (model : string) (conversation_id : pyval) (w : World) :
  same_files w
    (snd (extract_invoice json_loads py_repr file_data vendor_mappings model
            conversation_id w)).
Proof.
  unfold extract_invoice.
  apply bind_same_files; [apply lift_same_files|]. intros items w1.
  apply bind_same_files; [apply build_payload_same_files|]. intros payload w2.
  apply bind_same_files; [apply same_files_print|]. intros _ w3.
  apply bind_same_files; [apply same_files_refl|]. intros w4 w5.
  apply bind_same_files; [apply post_same_files|]. intros resp w6.
  destruct (negb (status_code resp =? 200)%Z).
  - apply bind_same_files; [apply same_files_print|]. intros. apply same_files_refl.
  - apply bind_same_files; [apply consume_frame|]. intros full_response w7.
    apply bind_same_files; [apply same_files_print|]. intros.
    apply parse_answer_same_files.
Qed.

(** X10: Whatever its arguments and whatever the backend answers, also when it
    raises, [extract_invoice] creates, changes and removes no file, and
    keeps the backend address of the client. *)
Theorem extract_invoice_changes_no_file (file_data vendor_mappings : pyval)
    (model : string) (conversation_id : pyval) (w : World) :
  same_files w
    (snd (extract_invoice json_loads py_repr file_data vendor_mappings model
            conversation_id w)).
Proof. apply extract_invoice_frame. Qed.

(** X11: The answer of a well-formed stream whose last [text] is the string
    [answer]: [extract_invoice] returns what [json.loads] makes of the
    stripped text with its fence removed, prints no error, and has stored
    the identifiers of the stream. *)
Theorem extraction_returns_decoded_answer (fd vm : list (string * pyval)) (model : string)
    (conversation_id : pyval) (w : World) (resp : response)
    (answer : string) (invoice_data : pyval) :
  server w (sent w) (ask_request py_repr fd vm model conversation_id w) = Some resp ->
  status_code resp = 200%Z ->
  Spec.well_formed json_loads (iter_lines resp) = true ->
  Spec.last_field "text" (Spec.events json_loads (iter_lines resp)) = Some (PyStr answer) ->
  json_loads (answer_json_text answer) = Ok invoice_data ->
  extract_invoice json_loads py_repr (PyDict fd) (PyDict vm) model conversation_id w
  = (Ok invoice_data,
     after_answer model (ask_request py_repr fd vm model conversation_id w)
                  (Spec.events json_loads (iter_lines resp)) w).
Proof.
  intros Hresp Hstatus Hwf Htext Hjson.
  rewrite (extract_invoice_answered json_loads py_repr fd vm model conversation_id w resp
             Hresp Hstatus Hwf).
  rewrite Htext. simpl default.
  unfold parse_answer, decode_answer, bind, lift, Py.strip.
  unfold answer_json_text in Hjson. rewrite Hjson. reflexivity.
Qed.

(** X12: A well-formed stream whose last [text] is not a string (a number, an
    object, null): the request has been sent and the identifiers stored,
    and [extract_invoice] raises [AttributeError] (at [.strip()]), which
    its [except json.JSONDecodeError] does not catch. *)
Theorem answer_that_is_not_a_string (fd vm : list (string * pyval)) (model : string)
    (conversation_id : pyval) (w : World) (resp : response) (v : pyval) :
  server w (sent w) (ask_request py_repr fd vm model conversation_id w) = Some resp ->
  status_code resp = 200%Z ->
  Spec.well_formed json_loads (iter_lines resp) = true ->
  Spec.last_field "text" (Spec.events json_loads (iter_lines resp)) = Some v ->
  (forall s, v <> PyStr s) ->
  extract_invoice json_loads py_repr (PyDict fd) (PyDict vm) model conversation_id w
  = (Raised AttributeError,
     after_answer model (ask_request py_repr fd vm model conversation_id w)
                  (Spec.events json_loads (iter_lines resp)) w).
Proof.
  intros Hresp Hstatus Hwf Htext Hv.
  rewrite (extract_invoice_answered json_loads py_repr fd vm model conversation_id w resp
             Hresp Hstatus Hwf).
  rewrite Htext. simpl default.
  unfold parse_answer, bind, lift, Py.strip.
  destruct v; try reflexivity. exfalso. eapply Hv. reflexivity.
Qed.

(** X13: A well-formed stream without any [text] (an empty stream, a stream of
    identifiers only): the retained text is the empty string, which
    [json.loads] rejects, so [extract_invoice] prints the error and the
    empty raw text and returns [None]; the identifiers are stored all the
    same. *)
Theorem answer_without_text (fd vm : list (string * pyval)) (model : string)
    (conversation_id : pyval) (w : World) (resp : response) (msg : string) :
  server w (sent w) (ask_request py_repr fd vm model conversation_id w) = Some resp ->
  status_code resp = 200%Z ->
  Spec.well_formed json_loads (iter_lines resp) = true ->
  Spec.last_field "text" (Spec.events json_loads (iter_lines resp)) = None ->
  json_loads EmptyString = Raised (JSONDecodeError msg) ->
  let after := after_answer model (ask_request py_repr fd vm model conversation_id w)
                 (Spec.events json_loads (iter_lines resp)) w in
  extract_invoice json_loads py_repr (PyDict fd) (PyDict vm) model conversation_id w
  = (Ok PyNone,
     set_console (console after ++ [MsgParseFailed msg; MsgRawResponse (PyStr EmptyString)])
                 after).
Proof.
  intros Hresp Hstatus Hwf Htext Hjson after. subst after.
  rewrite (extract_invoice_answered json_loads py_repr fd vm model conversation_id w resp
             Hresp Hstatus Hwf).
  rewrite Htext. simpl default.
  apply parse_answer_rejected. exact Hjson.
Qed.

End ExtractionFrame.

Lemma extraction_refused_witness :
  fst (extract_invoice MiniJson.loads MiniJson.repr (PyDict file_a) (PyDict vendors_v1)
         default_model PyNone busy_world) = Ok PyNone
  /\ self (snd (extract_invoice MiniJson.loads MiniJson.repr (PyDict file_a)
                  (PyDict vendors_v1) default_model PyNone busy_world))
     = self busy_world.
Proof.
  rewrite (extraction_refused MiniJson.loads MiniJson.repr file_a vendors_v1 default_model
             PyNone busy_world (mkResponse 429 "Too Many Requests" []) eq_refl
             ltac:(discriminate)).
  split; reflexivity.
Defined.

Lemma extraction_returns_decoded_answer_witness :
  fst (extract_invoice MiniJson.loads MiniJson.repr (PyDict file_a) (PyDict vendors_v1)
         default_model PyNone fenced_world) = Ok sample_invoice.
Proof.
  rewrite (extraction_returns_decoded_answer MiniJson.loads MiniJson.repr file_a vendors_v1
             default_model PyNone fenced_world
             (mkResponse 200 EmptyString
                [ ids_event "conv-9" "msg-9"; text_event fenced_answer; data_line "[DONE]" ])
             fenced_answer sample_invoice eq_refl eq_refl eq_refl eq_refl eq_refl).
  reflexivity.
Defined.

Lemma answer_that_is_not_a_string_witness :
  fst (extract_invoice MiniJson.loads MiniJson.repr (PyDict file_a) (PyDict vendors_v1)
         default_model PyNone numeric_text_world) = Raised AttributeError
  /\ parent_message_id
       (self (snd (extract_invoice MiniJson.loads MiniJson.repr (PyDict file_a)
                     (PyDict vendors_v1) default_model PyNone numeric_text_world)))
     = PyStr "msg-7".
Proof.
  rewrite (answer_that_is_not_a_string MiniJson.loads MiniJson.repr file_a vendors_v1
             default_model PyNone numeric_text_world
             (mkResponse 200 EmptyString
                [ ids_event "conv-7" "msg-7";
                  data_line ("{" +:+ quoted "text" +:+ ": 42}");
                  data_line "[DONE]" ])
             (PyInt 42) eq_refl eq_refl eq_refl eq_refl ltac:(discriminate)).
  split; reflexivity.
Defined.

Lemma answer_without_text_witness :
  fst (extract_invoice MiniJson.loads MiniJson.repr (PyDict file_a) (PyDict vendors_v1)
         default_model PyNone silent_world) = Ok PyNone
  /\ parent_message_id
       (self (snd (extract_invoice MiniJson.loads MiniJson.repr (PyDict file_a)
                     (PyDict vendors_v1) default_model PyNone silent_world)))
     = PyStr "msg-8".
Proof.
  rewrite (answer_without_text MiniJson.loads MiniJson.repr file_a vendors_v1
             default_model PyNone silent_world
             (mkResponse 200 EmptyString [ ids_event "conv-8" "msg-8"; data_line "[DONE]" ])
             "Expecting value" eq_refl eq_refl eq_refl eq_refl eq_refl).
  split; reflexivity.
Defined.

(** ** [load_vendor_mappings] and [main] *)

Section Main.
Variable json_loads : string -> outcome pyval.
Variable json_dumps : pyval -> string.
Variable py_repr : pyval -> string.

(** X14: A vendor file that exists is returned as [json.loads] reads it, with no
    check that it is an object of strings: a file that is not JSON makes
    [load_vendor_mappings] raise, a file that holds an array is returned
    as that array.  Nothing in the world changes. *)
Theorem load_vendor_mappings_reads_file (p content : string) (w : World) :
  fs w !! p = Some (File content) ->
  p <> EmptyString ->
  Str.utf8_valid content = true ->
  load_vendor_mappings json_loads (Some p) w = (json_loads content, w).
Proof.
  intros Hfile Hp Hutf. unfold load_vendor_mappings, given.
  destruct (String.eqb_spec p EmptyString) as [->|_]; [congruence|].
  erewrite bind_ok by (unfold path_exists; rewrite Hfile; reflexivity).
  unfold load_json_file.
  erewrite bind_ok by (unfold read_file; rewrite Hfile; reflexivity).
  unfold Str.decode_utf8. rewrite Hutf. reflexivity.
Qed.

Lemma load_vendor_mappings_world (vendors_file : option string) (w : World) :
  snd (load_vendor_mappings json_loads vendors_file w) = w.
Proof.
  unfold load_vendor_mappings. destruct (given vendors_file) as [p|]; [|reflexivity].
  unfold bind, path_exists.
  destruct (fs w !! p) as [[content|]|] eqn:Hfs; simpl; try reflexivity.
  - unfold load_json_file, bind, read_file. rewrite Hfs.
    destruct (Str.decode_utf8 content); reflexivity.
  - unfold load_json_file, bind, read_file. rewrite Hfs. reflexivity.
Qed.

(** X15: Without an email or without a password (absent or empty) [main] stops
    in [parser.error]: exit status 2, no client created, no request sent,
    nothing printed on the standard output, no file touched. *)
Theorem main_without_credentials (args : Args) (w : World) :
  given (arg_email args) = None \/ given (arg_password args) = None ->
  main json_loads json_dumps py_repr args w = (Raised (SystemExit 2), w)
  /\ run_main json_loads json_dumps py_repr args w = 2%Z.
Proof.
  intros H.
  assert (Hmain : main json_loads json_dumps py_repr args w = (Raised (SystemExit 2), w)).
  { unfold main. destruct H as [H|H]; rewrite H.
    - reflexivity.
    - destruct (given (arg_email args)); reflexivity. }
  split; [exact Hmain|]. unfold run_main. rewrite Hmain. reflexivity.
Qed.

Lemma bind_fs_or_zero {A : Type} (m : M A) (k : A -> M Z) (w : World) :
  fs (snd (m w)) = fs w ->
  (forall a w', fs (snd (k a w')) = fs w' \/ fst (k a w') = Ok 0%Z) ->
  fs (snd (bind m k w)) = fs w \/ fst (bind m k w) = Ok 0%Z.
Proof.
  intros Hm Hk. unfold bind. destruct (m w) as [[a|e] w1]; simpl in *.
  - destruct (Hk a w1) as [H|H]; [left; congruence|right; exact H].
  - left. exact Hm.
Qed.

Lemma same_files_fs (w w' : World) : same_files w w' -> fs w' = fs w.
Proof. intros (H & _). exact H. Qed.

(** X16: [main] writes its output file as its last step but one: whenever
    it does not return 0 (a failed login, upload or extraction, an
    exception anywhere) the files are exactly as they were.  Opening the
    output and [json.dump] are one step here, as in [write_file]. *)
Theorem main_writes_only_on_success (args : Args) (w : World) :
  fst (main json_loads json_dumps py_repr args w) <> Ok 0%Z ->
  fs (snd (main json_loads json_dumps py_repr args w)) = fs w.
Proof.
  intros Hfail.
  assert (H : fs (snd (main json_loads json_dumps py_repr args w)) = fs w
              \/ fst (main json_loads json_dumps py_repr args w) = Ok 0%Z);
    [|destruct H as [H|H]; [exact H|contradiction]].
  clear Hfail. unfold main.
  destruct (given (arg_email args)) as [email|]; [|left; reflexivity].
  destruct (given (arg_password args)) as [password|]; [|left; reflexivity].
  apply bind_fs_or_zero; [reflexivity|]. intros _ w0.
  apply bind_fs_or_zero; [apply login_fs|]. intros logged_in w1.
  destruct (negb logged_in); [left; reflexivity|].
  apply bind_fs_or_zero; [rewrite load_vendor_mappings_world; reflexivity|].
  intros vendor_mappings w2.
  apply bind_fs_or_zero; [reflexivity|]. intros n w3.
  apply bind_fs_or_zero; [reflexivity|]. intros _ w4.
  apply bind_fs_or_zero; [apply same_files_fs, upload_file_frame|].
  intros file_data w5.
  destruct (negb (Py.truthy file_data)); [left; reflexivity|].
  apply bind_fs_or_zero; [apply same_files_fs, extract_invoice_frame|].
  intros invoice_data w6.
  destruct (negb (Py.truthy invoice_data)); [left; reflexivity|].
  apply bind_fs_or_zero; [reflexivity|]. intros _ w7.
  do 7 (apply bind_fs_or_zero; [reflexivity|]; intros ? ?).
  apply bind_fs_or_zero; [reflexivity|]. intros _ w8.
  apply bind_fs_or_zero.
  { destruct (given (arg_output args)); [reflexivity|].
    unfold with_suffix_json. destruct (Path.with_suffix_json (arg_pdf args)); reflexivity. }
  intros output_path w9.
  unfold bind, write_file.
  destruct (bool_decide (output_path ∈ denied w9)); [left; reflexivity|].
  destruct (fs w9 !! output_path) as [[content|]|]; [right|left|right]; reflexivity.
Qed.

End Main.

Lemma load_vendor_mappings_reads_file_witness :
  load_vendor_mappings MiniJson.loads (Some "vendors.json") array_vendors_world
  = (MiniJson.loads "[1, 2]", array_vendors_world).
Proof.
  apply (load_vendor_mappings_reads_file MiniJson.loads "vendors.json" "[1, 2]"
           array_vendors_world).
  - reflexivity.
  - discriminate.
  - reflexivity.
Defined.

Lemma main_without_credentials_witness :
  cli no_password no_vendor_file = (Raised (SystemExit 2), no_vendor_file).
Proof.
  apply (main_without_credentials MiniJson.loads MiniJson.dumps MiniJson.repr
           no_password no_vendor_file).
  right. reflexivity.
Defined.

Lemma main_writes_only_on_success_witness :
  fs (snd (cli (cli_args "invoices/a.pdf" "wrong" None) no_vendor_file)) = fs no_vendor_file.
Proof.
  apply (main_writes_only_on_success MiniJson.loads MiniJson.dumps MiniJson.repr
           (cli_args "invoices/a.pdf" "wrong" None) no_vendor_file).
  vm_compute. discriminate.
Defined.

(** ** The batch driver *)

Lemma filter_none {A : Type} (P : A -> Prop) `{!forall x, Decision (P x)} (l : list A) :
  (forall x, In x l -> ~ P x) -> filter P l = [].
Proof.
  induction l as [|a l IH]; intros Hall; [reflexivity|].
  rewrite filter_cons. destruct (decide (P a)) as [HP|_].
  - exfalso. apply (Hall a); [left; reflexivity|exact HP].
  - apply IH. intros x Hx. apply Hall. right. exact Hx.
Qed.

Lemma glob_pdf_none (folder : string) (w : World) :
  (forall p, is_Some (fs w !! p) -> Path.is_pdf_in folder p = false) ->
  glob_pdf folder w = (Ok [], w).
Proof.
  intros H. unfold glob_pdf. rewrite filter_none; [reflexivity|].
  intros p Hin Hp. apply in_map_iff in Hin. destruct Hin as ([q n] & Hq & Hin).
  simpl in Hq. subst q. apply list_elem_of_In, elem_of_map_to_list in Hin.
  rewrite (H p) in Hp; [exact Hp|]. exists n. exact Hin.
Qed.

Lemma login_answered (email password : string) (w : World) (resp : response) :
  server w (sent w) (login_request w email password) = Some resp ->
  login email password w
  = (Ok (status_code resp =? 200)%Z,
     after_request (login_request w email password)
       (if (status_code resp =? 200)%Z then MsgLoginOk
        else MsgLoginFailed (status_code resp) (text resp)) w).
Proof.
  intros Hresp. unfold login, bind, get_world, post. unfold login_request in Hresp.
  rewrite Hresp. destruct (status_code resp =? 200)%Z; reflexivity.
Qed.

Section Batch.
Variable json_loads : string -> outcome pyval.
Variable json_dumps : pyval -> string.
Variable py_repr : pyval -> string.
Variable exn_str : exn -> string.

(** X17: A login that the backend answers with a status other than 200 ends the
    batch run at once: nothing is raised, the vendor file and the folder
    are not looked at, no file is written, and the login is the only
    request sent. *)
Theorem batch_stops_at_failed_login
    (folder_path vendors_file librechat_url email password : string)
    (output_folder : option string) (w : World) (resp : response) :
  server w (sent w) (login_request (batch_start librechat_url w) email password) = Some resp ->
  status_code resp <> 200%Z ->
  process_invoice_folder json_loads json_dumps py_repr exn_str
    folder_path vendors_file librechat_url email password output_folder w
  = (Ok tt, after_failed_login librechat_url email password resp w).
Proof.
  intros Hresp Hstatus. unfold process_invoice_folder.
  rewrite (bind_ok _ _ w (set_self (new_client librechat_url) w) tt eq_refl).
  rewrite (bind_ok (print (MsgLoggingIn librechat_url)) _
             (set_self (new_client librechat_url) w) (batch_start librechat_url w) tt eq_refl).
  apply Z.eqb_neq in Hstatus.
  erewrite bind_ok by (apply login_answered; exact Hresp).
  rewrite Hstatus. reflexivity.
Qed.

(** X18: A folder without a PDF ends the batch run after the login and the
    reading of the vendor file: the output directory is not created, no
    summary is written, and the login is the only request sent. *)
Theorem batch_without_pdfs
    (folder_path vendors_file librechat_url email password content : string)
    (output_folder : option string) (w : World) (resp : response)
    (vendors : pyval) (n : nat) :
  server w (sent w) (login_request (batch_start librechat_url w) email password) = Some resp ->
  status_code resp = 200%Z ->
  fs w !! vendors_file = Some (File content) ->
  Str.utf8_valid content = true ->
  json_loads content = Ok vendors ->
  Py.len vendors = Ok n ->
  (forall p, is_Some (fs w !! p) -> Path.is_pdf_in folder_path p = false) ->
  process_invoice_folder json_loads json_dumps py_repr exn_str
    folder_path vendors_file librechat_url email password output_folder w
  = (Ok tt, after_empty_folder librechat_url email password n w).
Proof.
  intros Hresp Hstatus Hfile Hutf Hjson Hlen Hnone. unfold process_invoice_folder.
  rewrite (bind_ok _ _ w (set_self (new_client librechat_url) w) tt eq_refl).
  rewrite (bind_ok (print (MsgLoggingIn librechat_url)) _
             (set_self (new_client librechat_url) w) (batch_start librechat_url w) tt eq_refl).
  apply Z.eqb_eq in Hstatus.
  erewrite bind_ok by (apply login_answered; exact Hresp).
  rewrite Hstatus. change (negb true) with false. cbv iota.
  set (w1 := after_request _ _ _).
  assert (Hfs : fs w1 = fs w) by reflexivity.
  erewrite bind_ok.
  2:{ unfold load_json_file.
      erewrite bind_ok by (unfold read_file; rewrite Hfs, Hfile; reflexivity).
      unfold Str.decode_utf8. rewrite Hutf. unfold lift. rewrite Hjson. reflexivity. }
  erewrite bind_ok by (unfold lift; rewrite Hlen; reflexivity).
  erewrite bind_ok by reflexivity.
  erewrite bind_ok by (apply glob_pdf_none; exact Hnone).
  erewrite bind_ok by reflexivity.
  unfold print, after_empty_folder. fold w1.
  cbn [length snd console set_console]. rewrite <- !app_assoc. reflexivity.
Qed.

Lemma bind_fst_post {A B : Type} (Q : outcome B -> Prop) (m : M A) (k : A -> M B) (w : World) :
  (forall e, Q (Raised e)) ->
  (forall a w', Q (fst (k a w'))) ->
  Q (fst (bind m k w)).
Proof.
  intros He Hk. unfold bind. destruct (m w) as [[a|e] w1]; [apply Hk|apply He].
Qed.

(** What one turn of the loop does to the results: nothing, or one entry
    for the file at the end; only [SystemExit] leaves the loop. *)
Lemma process_pdf_results (vendors : pyval) (output_dir : string) (i n : nat)
    (pdf_path : string) (results : list pyval) (w : World) :
  match fst (process_pdf json_loads json_dumps py_repr exn_str
               vendors output_dir i n pdf_path results w) with
  | Ok results' =>
      results' = results
      \/ exists r, entry_for (Path.name pdf_path) r /\ results' = results ++ [r]
  | Raised e => exists code, e = SystemExit code
  end.
Proof.
  unfold process_pdf.
  erewrite bind_ok by reflexivity.
  unfold except_Exception, try_except.
  match goal with |- context [match ?body ?w0 with _ => _ end] =>
    assert (Hbody : match fst (body w0) with
                    | Ok results' =>
                        results' = results
                        \/ exists r, entry_for (Path.name pdf_path) r
                                     /\ results' = results ++ [r]
                    | Raised _ => True
                    end);
    [|destruct (body w0) as [[results'|e] w1]]
  end.
  - apply bind_fst_post; [exact (fun _ => I)|]. intros file_data w1.
    destruct (negb (Py.truthy file_data)); [left; reflexivity|].
    apply bind_fst_post; [exact (fun _ => I)|]. intros invoice_data w2.
    destruct (negb (Py.truthy invoice_data)); [left; reflexivity|].
    apply bind_fst_post; [exact (fun _ => I)|]. intros json_path w3.
    do 7 (apply bind_fst_post; [exact (fun _ => I)|]; intros ? ?).
    right. eexists. split; [|reflexivity]. left. eexists. reflexivity.
  - exact Hbody.
  - destruct e; try (right; eexists; split; [right; eexists; reflexivity|reflexivity]).
    eexists. reflexivity.
Qed.

Lemma entry_for_is_object (name : string) (r : pyval) :
  entry_for name r -> Py.getitem r "file" = Ok (PyStr name).
Proof. intros [(d & ->)|(e & ->)]; reflexivity. Qed.

Lemma process_pdfs_results (vendors : pyval) (output_dir : string) (n : nat)
    (pdfs : list string) (i : nat) (results : list pyval) (w : World) :
  match fst (process_pdfs json_loads json_dumps py_repr exn_str
               vendors output_dir i n pdfs results w) with
  | Ok results' => exists added, results' = results ++ added /\ records pdfs added
  | Raised e => exists code, e = SystemExit code
  end.
Proof.
  revert i results w. induction pdfs as [|pdf_path rest IH]; intros i results w.
  - exists []. split; [symmetry; apply app_nil_r|constructor].
  - cbn [process_pdfs]. unfold bind.
    pose proof (process_pdf_results vendors output_dir i n pdf_path results w) as Hone.
    destruct (process_pdf json_loads json_dumps py_repr exn_str
                vendors output_dir i n pdf_path results w) as [[results1|e] w1];
      cbn [fst] in Hone; [|exact Hone].
    specialize (IH (S i) results1 w1).
    destruct (fst (process_pdfs json_loads json_dumps py_repr exn_str
                     vendors output_dir (S i) n rest results1 w1)) as [results'|e];
      [|exact IH].
    destruct IH as (added & -> & Hrec).
    destruct Hone as [->|(r & Hr & ->)].
    + exists added. split; [reflexivity|]. constructor. exact Hrec.
    + exists (r :: added). split; [rewrite <- app_assoc; reflexivity|].
      constructor; assumption.
Qed.

(** X19: Whatever the files and the backend do, the loop over the PDFs raises
    nothing that [except Exception] catches, keeps the entries it had, and
    adds at most one entry per file, in the order of the files and under
    the name of the file, with the status [success] or [error]. *)
Theorem at_most_one_entry_per_file (vendors : pyval) (output_dir : string) (n : nat)
    (pdfs : list string) (i : nat) (results : list pyval) (w : World) :
  match fst (process_pdfs json_loads json_dumps py_repr exn_str
               vendors output_dir i n pdfs results w) with
  | Ok results' => exists added, results' = results ++ added /\ records pdfs added
  | Raised e => exists code, e = SystemExit code
  end.
Proof. apply process_pdfs_results. Qed.

(** X20: An exception raised by the upload, or by the extraction that follows an
    accepted upload, is caught by the loop: the file gets an [error] entry
    with the text of the exception, the loop goes on, and no file is
    written. *)
Theorem exception_becomes_error_entry (vendors : pyval) (output_dir : string) (i n : nat)
    (pdf_path : string) (results : list pyval) (w : World) (e : exn) :
  (fst (upload_file json_loads pdf_path (processing i n pdf_path w)) = Raised e
   \/ exists file_data w1,
        upload_file json_loads pdf_path (processing i n pdf_path w) = (Ok file_data, w1)
        /\ Py.truthy file_data = true
        /\ fst (extract_invoice json_loads py_repr file_data vendors default_model PyNone w1)
           = Raised e) ->
  (forall code, e <> SystemExit code) ->
  fst (process_pdf json_loads json_dumps py_repr exn_str
         vendors output_dir i n pdf_path results w)
  = Ok (results ++ [result_error (Path.name pdf_path) (exn_str e)])
  /\ fs (snd (process_pdf json_loads json_dumps py_repr exn_str
                vendors output_dir i n pdf_path results w)) = fs w
  /\ last (console (snd (process_pdf json_loads json_dumps py_repr exn_str
                           vendors output_dir i n pdf_path results w)))
     = Some (MsgBatchError (exn_str e)).
Proof.
  intros Hraised Hexn. unfold process_pdf.
  rewrite (bind_ok (print (MsgProcessing i n (Path.name pdf_path))) _ w
             (processing i n pdf_path w) tt eq_refl).
  set (started := processing i n pdf_path w) in *.
  unfold except_Exception, try_except.
  pose proof (upload_file_frame json_loads pdf_path started) as Hup.
  apply proj1, same_files_fs in Hup.
  match goal with |- context [match ?body started with _ => _ end] =>
    assert (Hbody : exists w1, body started = (Raised e, w1) /\ fs w1 = fs w);
    [|destruct Hbody as (w1 & Hb & Hfs); rewrite Hb]
  end.
  - destruct Hraised as [Hu|(file_data & w1 & Hu & Htrue & Hex)].
    + exists (snd (upload_file json_loads pdf_path started)). split.
      * apply bind_raised. apply pair_of_fst. exact Hu.
      * exact Hup.
    + pose proof (extract_invoice_frame json_loads py_repr
                    file_data vendors default_model PyNone w1) as Hext.
      apply same_files_fs in Hext. rewrite Hu in Hup.
      exists (snd (extract_invoice json_loads py_repr file_data vendors default_model PyNone
                     w1)). split.
      * erewrite bind_ok by exact Hu.
        rewrite Htrue. change (negb true) with false. cbv iota.
        apply bind_raised. apply pair_of_fst. exact Hex.
      * rewrite Hext. exact Hup.
  - destruct e; try (unfold bind, print; cbn [fst snd fs console set_console];
                     repeat split; [exact Hfs|apply last_snoc]).
    exfalso. eapply Hexn. reflexivity.
Qed.

Lemma bind_post {A B : Type} (P : outcome B * World -> Prop)
    (m : M A) (k : A -> M B) (w : World) :
  (forall e w1, m w = (Raised e, w1) -> P (Raised e, w1)) ->
  (forall a w1, m w = (Ok a, w1) -> P (k a w1)) ->
  P (bind m k w).
Proof.
  intros He Hk. unfold bind. destruct (m w) as [[a|e] w1]; [apply Hk|apply He]; reflexivity.
Qed.

Lemma load_json_file_world (p : string) (w : World) :
  snd (load_json_file json_loads p w) = w.
Proof.
  unfold load_json_file, bind, read_file.
  destruct (fs w !! p) as [[content|]|]; try reflexivity.
  destruct (Str.decode_utf8 content); reflexivity.
Qed.

Lemma glob_pdf_fs (folder : string) (w w' : World) :
  fs w' = fs w -> fst (glob_pdf folder w') = fst (glob_pdf folder w).
Proof. intros H. unfold glob_pdf. rewrite H. reflexivity. Qed.

(** X21: A batch run that raises nothing has ended in one of three ways: at a
    failed login or at a folder without a PDF, with no file written; or
    with the summary file written, which then holds at most one entry per
    PDF of the folder, in the order of the enumeration. *)
Theorem batch_run_outcomes
    (folder_path vendors_file librechat_url email password : string)
    (output_folder : option string) (w : World) :
  fst (process_invoice_folder json_loads json_dumps py_repr exn_str
         folder_path vendors_file librechat_url email password output_folder w) = Ok tt ->
  batch_end json_dumps folder_path output_folder w
    (snd (process_invoice_folder json_loads json_dumps py_repr exn_str
            folder_path vendors_file librechat_url email password output_folder w)).
Proof.
  set (P := fun r : outcome unit * World =>
              fst r = Ok tt -> batch_end json_dumps folder_path output_folder w (snd r)).
  change (P (process_invoice_folder json_loads json_dumps py_repr exn_str
               folder_path vendors_file librechat_url email password output_folder w)).
  assert (Hraised : forall e w1, P (Raised e, w1)) by (intros e w1 H; discriminate H).
  unfold process_invoice_folder.
  rewrite (bind_ok _ _ w (set_self (new_client librechat_url) w) tt eq_refl).
  rewrite (bind_ok (print (MsgLoggingIn librechat_url)) _
             (set_self (new_client librechat_url) w) (batch_start librechat_url w) tt eq_refl).
  apply bind_post; [intros; apply Hraised|]. intros logged_in w1 Hlogin.
  assert (Hfs1 : fs w1 = fs w).
  { pose proof (login_fs email password (batch_start librechat_url w)) as H.
    rewrite Hlogin in H. exact H. }
  destruct logged_in; cbv [negb].
  2:{ intros _. apply end_login_failed; [apply last_snoc|exact Hfs1]. }
  apply bind_post; [intros; apply Hraised|]. intros vendors w2 Hload.
  assert (Hw2 : w2 = w1).
  { pose proof (load_json_file_world vendors_file w1) as H. rewrite Hload in H. exact H. }
  subst w2.
  apply bind_post; [intros; apply Hraised|]. intros n w2 Hn.
  assert (w2 = w1) by (unfold lift in Hn; congruence). subst w2.
  apply bind_post; [intros; apply Hraised|]. intros [] w2 Hprint.
  assert (Hfs2 : fs w2 = fs w) by (unfold print in Hprint; inversion Hprint; exact Hfs1).
  apply bind_post; [intros; apply Hraised|]. intros pdfs w3 Hglob.
  assert (Hw3 : w3 = w2) by (unfold glob_pdf in Hglob; congruence). subst w3.
  assert (Hpdfs : glob_pdf folder_path w = (Ok pdfs, w)).
  { apply pair_of_fst. rewrite <- (glob_pdf_fs folder_path w w2 Hfs2), Hglob. reflexivity. }
  apply bind_post; [intros; apply Hraised|]. intros [] w3 Hprint3.
  assert (Hfs3 : fs w3 = fs w) by (unfold print in Hprint3; inversion Hprint3; exact Hfs2).
  destruct pdfs as [|pdf rest].
  { intros _. apply end_no_pdfs; [exact Hpdfs|apply last_snoc|exact Hfs3]. }
  apply bind_post; [intros; apply Hraised|]. intros [] w4 _.
  apply bind_post; [intros; apply Hraised|]. intros results w5 Hloop.
  pose proof (process_pdfs_results vendors
                (match given output_folder with Some o => o | None => folder_path end)
                (length (pdf :: rest)) (pdf :: rest) 1 [] w4) as Hrec.
  rewrite Hloop in Hrec. cbn [fst] in Hrec. destruct Hrec as (added & Hadded & Hrec).
  rewrite app_nil_l in Hadded. subst added.
  apply bind_post; [intros; apply Hraised|]. intros [] w6 Hprint6.
  apply bind_post; [intros; apply Hraised|]. intros [] w7 Hwrite.
  intros _. apply (end_summary _ _ _ _ _ (pdf :: rest) results); [exact Hpdfs|exact Hrec|].
  unfold print. cbn [snd fs set_console].
  unfold write_file in Hwrite.
  destruct (bool_decide _); [discriminate Hwrite|].
  destruct (fs w6 !! _) as [[c|]|]; try discriminate Hwrite;
    inversion Hwrite; apply lookup_insert_eq.
Qed.

End Batch.

Lemma batch_stops_at_failed_login_witness :
  process_invoice_folder MiniJson.loads MiniJson.dumps MiniJson.repr MiniJson.exn_str
    "invoices" "vendors.json" "http://localhost:3080/" "user@example.com" "wrong" None
    three_invoices
  = (Ok tt, after_failed_login "http://localhost:3080/" "user@example.com" "wrong"
              (mkResponse 401 "Unauthorized" []) three_invoices).
Proof.
  apply (batch_stops_at_failed_login MiniJson.loads MiniJson.dumps MiniJson.repr
           MiniJson.exn_str "invoices" "vendors.json" "http://localhost:3080/"
           "user@example.com" "wrong" None three_invoices
           (mkResponse 401 "Unauthorized" [])).
  - reflexivity.
  - simpl. lia.
Defined.

Lemma batch_without_pdfs_witness :
  process_invoice_folder MiniJson.loads MiniJson.dumps MiniJson.repr MiniJson.exn_str
    "invoices" "vendors.json" "http://localhost:3080/" "user@example.com" "secret" None
    empty_folder
  = (Ok tt, after_empty_folder "http://localhost:3080/" "user@example.com" "secret" 1
              empty_folder).
Proof.
  apply (batch_without_pdfs MiniJson.loads MiniJson.dumps MiniJson.repr
           MiniJson.exn_str "invoices" "vendors.json" "http://localhost:3080/"
           "user@example.com" "secret" vendors_json None empty_folder
           (mkResponse 200 "{}" []) (PyDict vendors_v1) 1).
  - reflexivity.
  - reflexivity.
  - reflexivity.
  - reflexivity.
  - vm_compute. reflexivity.
  - reflexivity.
  - intros p [nd Hp].
    change (fs empty_folder)
      with (<["vendors.json" := File vendors_json]>
              (<["notes/readme.txt" := File "none"]> (∅ : gmap string node))) in Hp.
    apply lookup_insert_Some in Hp as [[<- _]|[_ Hp]]; [reflexivity|].
    apply lookup_insert_Some in Hp as [[<- _]|[_ Hp]]; [reflexivity|].
    rewrite lookup_empty in Hp. discriminate Hp.
Defined.

Lemma exception_becomes_error_entry_witness :
  fst (process_pdf MiniJson.loads MiniJson.dumps MiniJson.repr MiniJson.exn_str
         (PyDict vendors_v1) "invoices" 1 1 "invoices/a.pdf" [] array_world)
  = Ok [result_error "a.pdf" (MiniJson.exn_str AttributeError)].
Proof.
  apply (exception_becomes_error_entry MiniJson.loads MiniJson.dumps MiniJson.repr
           MiniJson.exn_str (PyDict vendors_v1) "invoices" 1 1 "invoices/a.pdf" []
           array_world AttributeError).
  - left. vm_compute. reflexivity.
  - discriminate.
Defined.

Lemma batch_run_outcomes_witness :
  batch_end MiniJson.dumps "invoices" None three_invoices (snd (batch three_invoices)).
Proof.
  apply (batch_run_outcomes MiniJson.loads MiniJson.dumps MiniJson.repr MiniJson.exn_str
           "invoices" "vendors.json" "http://localhost:3080/" "user@example.com" "secret"
           None three_invoices).
  vm_compute. reflexivity.
Defined.
